(** * grave-tether: the ADB USB-tethering panel (lxpanic.py)

    A shallow embedding of the device discovery, authorization check,
    tethering pipelines and host interface probe of [AdbTetherApp], and the
    properties of the specification that hold (or fail) on it.

    Conventions of the embedding.
    - Python [str] and the captured [bytes] of a child process are Rocq
      [string]s: sequences of code points 0..255.  The output of a process is
      taken as already decoded ([decode()] is assumed not to fail), and the
      character classes (white space, digits, line boundaries) are the ones
      Python has below code point 256.
    - The operating system is a parameter: a type [World] of external states
      and a function [exec] that gives, for an argument vector and a world,
      the outcome of spawning that process and the world afterwards.
    - The application object and the module global [DEVICE_SERIAL] form one
      record [State], threaded through a state-and-exception monad in which a
      raised exception keeps the state reached so far, as Python does.  The
      record also keeps every process spawned, with its result.
    - Widget rendering (the reactive watchers) is left out; the text written to
      the [RichLog] widget is kept as a list of lines. *)

From Stdlib Require Import String Ascii List Bool Arith ZArith Lia.
Import ListNotations.
Local Open Scope string_scope.
Local Open Scope list_scope.
Local Open Scope nat_scope.

(** ** Python text primitives *)

Module Py.

Definition TAB : ascii := ascii_of_nat 9.
Definition LF : ascii := ascii_of_nat 10.
Definition CR : ascii := ascii_of_nat 13.

(** [bool(s)] of a [str] or [bytes] value. *)
Definition truthy (s : string) : bool :=
  match s with
  | EmptyString => false
  | String _ _ => true
  end.

(** [c.isspace()] on code points below 256: TAB..CR, FS..US, space, NEL, NBSP. *)
Definition isspace (c : ascii) : bool :=
  let n := nat_of_ascii c in
  ((9 <=? n) && (n <=? 13)) || ((28 <=? n) && (n <=? 32))
  || (n =? 133) || (n =? 160).

(** [c] is a decimal digit (category Nd; below 256 that is 0-9). *)
Definition isdigit (c : ascii) : bool :=
  let n := nat_of_ascii c in (48 <=? n) && (n <=? 57).

(** The line boundaries of [str.splitlines] below 256. *)
Definition islinebreak (c : ascii) : bool :=
  let n := nat_of_ascii c in
  ((10 <=? n) && (n <=? 13)) || ((28 <=? n) && (n <=? 30)) || (n =? 133).

Fixpoint lstrip (s : string) : string :=
  match s with
  | EmptyString => EmptyString
  | String c s' => if isspace c then lstrip s' else s
  end.

Fixpoint rstrip (s : string) : string :=
  match s with
  | EmptyString => EmptyString
  | String c s' =>
      match rstrip s' with
      | EmptyString => if isspace c then EmptyString else String c EmptyString
      | r => String c r
      end
  end.

(** [s.strip()] *)
Definition strip (s : string) : string := rstrip (lstrip s).

(** [s.splitlines()]: a CR LF pair is one boundary, and a final boundary
    opens no empty last line. *)
Fixpoint splitlines (s : string) : list string :=
  match s with
  | EmptyString => []
  | String c s' =>
      if islinebreak c then
        match s' with
        | String d s'' =>
            if Ascii.eqb c CR && Ascii.eqb d LF
            then EmptyString :: splitlines s''
            else EmptyString :: splitlines s'
        | EmptyString => [EmptyString]
        end
      else
        match splitlines s' with
        | [] => [String c EmptyString]
        | l :: ls => String c l :: ls
        end
  end.

(** [needle in hay] *)
Fixpoint str_in (needle hay : string) : bool :=
  if String.prefix needle hay then true
  else match hay with
       | EmptyString => false
       | String _ hay' => str_in needle hay'
       end.

(** The character [c] does not occur in [n]. *)
Fixpoint lacks (c : ascii) (n : string) : bool :=
  match n with
  | EmptyString => true
  | String d n' => negb (Ascii.eqb d c) && lacks c n'
  end.

(** [s.split(sep)] for a one-character separator. *)
Fixpoint split (sep : ascii) (s : string) : list string :=
  match s with
  | EmptyString => [EmptyString]
  | String c s' =>
      if Ascii.eqb c sep then EmptyString :: split sep s'
      else match split sep s' with
           | [] => [String c EmptyString]
           | f :: fs => String c f :: fs
           end
  end.

(** [l[0]] where the list is known to be non-empty ([split] never returns
    an empty list). *)
Definition item0 (l : list string) : string := hd EmptyString l.

(** [sep.join(l)] *)
Definition join (sep : string) (l : list string) : string := String.concat sep l.

(** [x in l] for a list of strings. *)
Definition list_in (x : string) (l : list string) : bool :=
  existsb (String.eqb x) l.

End Py.

(** ** Regular expressions, as [re.search] runs them

    The two patterns of the program use literals, one capture group,
    alternation, and greedy repetition of one-character classes only; the
    matcher below is the backtracking matcher restricted to that fragment.
    Alternatives are tried left to right, a repetition takes as many
    characters as it can and gives them back one at a time. *)

Module Re.

Inductive charclass :=
| Digit      (* \d *)
| NonSpace   (* \S *)
| Dot.       (* . (no DOTALL: everything but LF) *)

Definition cls_mem (c : charclass) (a : ascii) : bool :=
  match c with
  | Digit => Py.isdigit a
  | NonSpace => negb (Py.isspace a)
  | Dot => negb (Ascii.eqb a Py.LF)
  end.

Inductive regex :=
| Lit (s : string)
| Rep (c : charclass) (lo : nat) (hi : option nat)  (* c{lo,hi}; hi = None: no bound *)
| Cat (r1 r2 : regex)
| Alt (r1 r2 : regex)
| Grp (r : regex).                                   (* capture group 1 *)

Definition more_allowed (hi : option nat) : bool :=
  match hi with
  | Some 0 => false
  | _ => true
  end.

(** The text [s] without its prefix [l], when it starts with [l]. *)
Fixpoint strip_prefix (l s : string) : option string :=
  match l with
  | EmptyString => Some s
  | String a l' =>
      match s with
      | String b s' => if Ascii.eqb a b then strip_prefix l' s' else None
      | EmptyString => None
      end
  end.

(** What was consumed going from [s] to its suffix [s']. *)
Definition consumed (s s' : string) : string :=
  String.substring 0 (String.length s - String.length s') s.

Section Matcher.
Context {A : Type}.

Fixpoint rep (c : charclass) (lo : nat) (hi : option nat) (s : string)
         (k : string -> option A) : option A :=
  match s with
  | String a s' =>
      if cls_mem c a && more_allowed hi then
        match rep c (Nat.pred lo) (option_map Nat.pred hi) s' k with
        | Some x => Some x
        | None => if lo =? 0 then k s else None
        end
      else if lo =? 0 then k s else None
  | EmptyString => if lo =? 0 then k s else None
  end.

(** [rmatch r s g k]: match [r] at the start of [s], with [g] the capture
    so far, and hand the rest of the text and the capture to [k]; when [k]
    refuses, the next way of matching [r] is tried. *)
Fixpoint rmatch (r : regex) (s : string) (g : option string)
         (k : string -> option string -> option A) : option A :=
  match r with
  | Lit l =>
      match strip_prefix l s with
      | Some s' => k s' g
      | None => None
      end
  | Rep c lo hi => rep c lo hi s (fun s' => k s' g)
  | Cat r1 r2 => rmatch r1 s g (fun s' g' => rmatch r2 s' g' k)
  | Alt r1 r2 =>
      match rmatch r1 s g k with
      | Some x => Some x
      | None => rmatch r2 s g k
      end
  | Grp r1 => rmatch r1 s g (fun s' _ => k s' (Some (consumed s s')))
  end.
End Matcher.

(** A match object: the text of group 1, if the group took part. *)
Definition match_object := option string.

(** [re.search(r, s)]: the first position, from the left, where [r] matches. *)
Fixpoint search (r : regex) (s : string) : option match_object :=
  match rmatch r s None (fun _ g => Some g) with
  | Some m => Some m
  | None =>
      match s with
      | EmptyString => None
      | String _ s' => search r s'
      end
  end.

(** [re.fullmatch(r, s)], as a test. *)
Definition fullmatch (r : regex) (s : string) : bool :=
  match rmatch r s None (fun rest _ => if Py.truthy rest then None else Some tt) with
  | Some _ => true
  | None => false
  end.

(** *** What a pattern denotes

    [matches r m g g']: the text [m] is in the language of [r]; [g] is the
    capture before and [g'] the capture after ([Grp] records its own text). *)
Fixpoint all_in (c : charclass) (m : string) : bool :=
  match m with
  | EmptyString => true
  | String a m' => cls_mem c a && all_in c m'
  end.

Definition fits (hi : option nat) (n : nat) : bool :=
  match hi with
  | None => true
  | Some h => n <=? h
  end.

Inductive matches : regex -> string -> option string -> option string -> Prop :=
| m_lit l g : matches (Lit l) l g g
| m_rep c lo hi m g :
    all_in c m = true -> lo <= String.length m -> fits hi (String.length m) = true ->
    matches (Rep c lo hi) m g g
| m_cat r1 r2 m1 m2 g g1 g2 :
    matches r1 m1 g g1 -> matches r2 m2 g1 g2 -> matches (Cat r1 r2) (m1 ++ m2) g g2
| m_alt_l r1 r2 m g g' : matches r1 m g g' -> matches (Alt r1 r2) m g g'
| m_alt_r r1 r2 m g g' : matches r2 m g g' -> matches (Alt r1 r2) m g g'
| m_grp r m g g1 : matches r m g g1 -> matches (Grp r) m g (Some m).

(** No part of [s] is in the language of [r]. *)
Definition no_match (r : regex) (s : string) : Prop :=
  forall pre m post g, s = (pre ++ m ++ post)%string -> ~ matches r m None g.

(** [s] has a part in the language of [r] with capture [g], and no part in
    the language of [r] starts further left. *)
Definition first_match (r : regex) (s : string) (g : option string) : Prop :=
  exists pre m post,
    s = (pre ++ m ++ post)%string /\ matches r m None g /\
    forall pre' m' post' g',
      s = (pre' ++ m' ++ post')%string -> matches r m' None g' ->
      String.length pre <= String.length pre'.

Definition plus (c : charclass) : regex := Rep c 1 None.
Definition star (c : charclass) : regex := Rep c 0 None.
Fixpoint cat (rs : list regex) : regex :=
  match rs with
  | [] => Lit EmptyString
  | [r] => r
  | r :: rs' => Cat r (cat rs')
  end.

End Re.

(** ** The outside world and the application state *)

(** What spawning a child process and draining its pipes gives:
    [asyncio.create_subprocess_exec] followed by [communicate()]. *)
Inductive spawn_result :=
| Exited (returncode : Z) (stdout stderr : string)
| NotFound                (* FileNotFoundError: no such executable *)
| Failed (e : string).    (* any other exception; [e] is its message *)

Inductive exn :=
| FileNotFoundError
| Exception (e : string).

Inductive outcome (A : Type) :=
| Return (a : A)
| Raise (e : exn).
Arguments Return {A} a.
Arguments Raise {A} e.

Definition argv := list string.

(** [adb -s SERIAL shell svc usb setFunctions FUNCTIONS] *)
Definition is_set_functions (a : list string) : bool :=
  match a with
  | [a0; a1; _; a3; a4; a5; a6; _] =>
      if list_eq_dec string_dec [a0; a1; a3; a4; a5; a6]
                     ["adb"; "-s"; "shell"; "svc"; "usb"; "setFunctions"]
      then true else false
  | _ => false
  end.

(** A step of a pipeline succeeded: the process ran and returned 0. *)
Definition succeeded (r : spawn_result) : bool :=
  match r with
  | Exited rc _ _ => (rc =? 0)%Z
  | _ => false
  end.

Definition argv_eqb (a b : argv) : bool :=
  if list_eq_dec string_dec a b then true else false.

(** The commands of a status refresh: they read the bridge and the host
    network state and change no device setting.
    [adb devices], [adb -s SERIAL shell echo test], [ip link show],
    [ip -4 addr show dev NAME]. *)
Definition is_query (a : argv) : bool :=
  argv_eqb a ["adb"; "devices"]
  || match a with
     | [a0; a1; _; a3; a4; a5] => argv_eqb [a0; a1; a3; a4; a5] ["adb"; "-s"; "shell"; "echo"; "test"]
     | _ => false
     end
  || argv_eqb a ["ip"; "link"; "show"]
  || match a with
     | [a0; a1; a2; a3; a4; _] => argv_eqb [a0; a1; a2; a3; a4] ["ip"; "-4"; "addr"; "show"; "dev"]
     | _ => false
     end.

Section App.

Variable World : Type.
Variable exec : argv -> World -> spawn_result * World.

(** The reactive attributes of [AdbTetherApp], the module global
    [DEVICE_SERIAL], the lines of the [RichLog], and the world with the record
    of every process spawned so far. *)
Record State := mkState {
  DEVICE_SERIAL : string;
  adb_status : string;
  device_info : string;
  linux_iface_status : string;
  adb_ready : bool;
  rich_log : list string;
  world : World;
  exec_log : list (argv * spawn_result)
}.

(** The class attributes and the configuration block, on a given world. *)
Definition initial (serial : string) (w : World) : State :=
  mkState serial "Unknown" "N/A" "Unknown" false [] w [].

Definition M (A : Type) : Type := State -> outcome A * State.

Definition ret {A} (a : A) : M A := fun st => (Return a, st).
Definition raise {A} (e : exn) : M A := fun st => (Raise e, st).
Definition bind {A B} (m : M A) (f : A -> M B) : M B :=
  fun st =>
    match m st with
    | (Return a, st') => f a st'
    | (Raise e, st') => (Raise e, st')
    end.
(** [try: body except FileNotFoundError: ... except Exception as e: ...] *)
Definition try_except {A} (body : M A) (handler : exn -> M A) : M A :=
  fun st =>
    match body st with
    | (Return a, st') => (Return a, st')
    | (Raise e, st') => handler e st'
    end.

Notation "x <- c1 ;; c2" := (bind c1 (fun x => c2))
  (at level 61, c1 at next level, right associativity).
Notation "c1 ;; c2" := (bind c1 (fun _ => c2))
  (at level 61, right associativity).

Definition get_DEVICE_SERIAL : M string := fun st => (Return (DEVICE_SERIAL st), st).
Definition get_adb_ready : M bool := fun st => (Return (adb_ready st), st).

Definition set_DEVICE_SERIAL (v : string) : M unit := fun st =>
  (Return tt, mkState v (adb_status st) (device_info st) (linux_iface_status st)
                      (adb_ready st) (rich_log st) (world st) (exec_log st)).
Definition set_adb_status (v : string) : M unit := fun st =>
  (Return tt, mkState (DEVICE_SERIAL st) v (device_info st) (linux_iface_status st)
                      (adb_ready st) (rich_log st) (world st) (exec_log st)).
Definition set_device_info (v : string) : M unit := fun st =>
  (Return tt, mkState (DEVICE_SERIAL st) (adb_status st) v (linux_iface_status st)
                      (adb_ready st) (rich_log st) (world st) (exec_log st)).
Definition set_linux_iface_status (v : string) : M unit := fun st =>
  (Return tt, mkState (DEVICE_SERIAL st) (adb_status st) (device_info st) v
                      (adb_ready st) (rich_log st) (world st) (exec_log st)).
Definition set_adb_ready (v : bool) : M unit := fun st =>
  (Return tt, mkState (DEVICE_SERIAL st) (adb_status st) (device_info st)
                      (linux_iface_status st) v (rich_log st) (world st) (exec_log st)).

(** [self.query_one(RichLog).write(line)] *)
Definition write (line : string) : M unit := fun st =>
  (Return tt, mkState (DEVICE_SERIAL st) (adb_status st) (device_info st)
                      (linux_iface_status st) (adb_ready st)
                      (rich_log st ++ [line]) (world st) (exec_log st)).

(** A finished child process: return code, stdout, stderr. *)
Record process := mkProcess {
  returncode : Z;
  stdout : string;
  stderr : string
}.

(** [asyncio.create_subprocess_exec] on an argument vector, with both pipes
    captured, and [communicate()]: the world moves on, the call is recorded, and a spawn
    failure surfaces as an exception. *)
Definition create_subprocess_exec (args : argv) : M process := fun st =>
  let '(r, w') := exec args (world st) in
  let st' := mkState (DEVICE_SERIAL st) (adb_status st) (device_info st)
                     (linux_iface_status st) (adb_ready st) (rich_log st)
                     w' (exec_log st ++ [(args, r)]) in
  match r with
  | Exited rc out err => (Return (mkProcess rc out err), st')
  | NotFound => (Raise FileNotFoundError, st')
  | Failed e => (Raise (Exception e), st')
  end.

(** ** The program *)

Definition ADB_PATH : string := "adb".

Definition when (b : bool) (m : M unit) : M unit := if b then m else ret tt.

(** The first lines of [run_adb_command]: the bridge executable, [-s serial]
    when a serial is bound, then the arguments. *)
Definition full_command (serial : string) (command_args : list string) : argv :=
  [ADB_PATH] ++ (if Py.truthy serial then ["-s"; serial] else []) ++ command_args.

(** [run_adb_command(description, command_args)] *)
Definition run_adb_command (description : string) (command_args : list string) : M bool :=
  serial <- get_DEVICE_SERIAL ;;
  let full_command := full_command serial command_args in
  write ("[blue]Executing: " ++ description ++ "...[/blue]") ;;
  write ("[yellow]  `" ++ Py.join " " full_command ++ "`[/yellow]") ;;
  try_except
    (p <- create_subprocess_exec full_command ;;
     if (returncode p =? 0)%Z then
       write ("[green]SUCCESS: " ++ description ++ "[/green]") ;;
       when (Py.truthy (stdout p))
            (write ("[dim]Output:[/dim] " ++ Py.strip (stdout p))) ;;
       ret true
     else
       write ("[red]FAILED: " ++ description ++ "[/red]") ;;
       when (Py.truthy (stdout p))
            (write ("[dim]Stdout:[/dim] " ++ Py.strip (stdout p))) ;;
       when (Py.truthy (stderr p))
            (write ("[dim]Stderr:[/dim] " ++ Py.strip (stderr p))) ;;
       ret false)
    (fun e =>
       match e with
       | FileNotFoundError =>
           write ("[red]ERROR: ADB command not found. Is '" ++ ADB_PATH
                  ++ "' in your PATH?[/red]") ;;
           ret false
       | Exception e =>
           write ("[red]ERROR executing command: " ++ e ++ "[/red]") ;;
           ret false
       end).

(** The list comprehension of [check_adb_connection]:
    [[line.split('\t')[0] for line in output.splitlines()
      if 'device' in line and 'List of devices attached' not in line]] *)
Definition is_device_line (line : string) : bool :=
  Py.str_in "device" line && negb (Py.str_in "List of devices attached" line).

Definition devices_of (output : string) : list string :=
  map (fun line => Py.item0 (Py.split Py.TAB line))
      (filter is_device_line (Py.splitlines output)).

(** The "final check for authorization" block of [check_adb_connection]. *)
Definition authorization_check : M unit :=
  serial <- get_DEVICE_SERIAL ;;
  test_proc <- create_subprocess_exec [ADB_PATH; "-s"; serial; "shell"; "echo"; "test"] ;;
  if Py.str_in "device unauthorized" (stderr test_proc) then
    set_adb_status "[red]Auth Failed[/red]" ;;
    set_device_info serial ;;
    set_adb_ready false ;;
    write ("[red]Failed to communicate with " ++ serial
           ++ ". Ensure authorization (prompt on phone).[/red]")
  else
    set_adb_status "[green]Connected[/green]" ;;
    set_device_info serial ;;
    set_adb_ready true.

(** [check_adb_connection()] *)
Definition check_adb_connection : M unit :=
  try_except
    (proc <- create_subprocess_exec [ADB_PATH; "devices"] ;;
     let output := Py.strip (stdout proc) in
     let devices := devices_of output in
     serial <- get_DEVICE_SERIAL ;;
     match devices with
     | [] =>
         set_adb_status "[red]Disconnected[/red]" ;;
         set_device_info "N/A" ;;
         set_adb_ready false ;;
         write "[red]No Android device detected. Connect phone & enable USB debugging.[/red]"
     | device0 :: _ =>
         if (1 <? List.length devices) && negb (Py.truthy serial) then
           set_adb_status "[yellow]Multiple Devices[/yellow]" ;;
           set_device_info ("Please specify serial (found: " ++ Py.join ", " devices ++ ")") ;;
           set_adb_ready false ;;
           write ("[yellow]Multiple devices found. Please set `DEVICE_SERIAL` in the script to select one: "
                  ++ Py.join ", " devices ++ "[/yellow]")
         else if negb (Py.truthy serial) then
           set_DEVICE_SERIAL device0 ;;
           authorization_check
         else if negb (Py.list_in serial devices) then
           set_adb_status "[red]Specified Device Not Found[/red]" ;;
           set_device_info serial ;;
           set_adb_ready false ;;
           write ("[red]Specified device (" ++ serial
                  ++ ") not found among connected devices. Detected: "
                  ++ Py.join ", " devices ++ ".[/red]")
         else
           authorization_check
     end)
    (fun e =>
       match e with
       | FileNotFoundError =>
           set_adb_status "[red]ERROR: ADB command not found[/red]" ;;
           set_device_info "N/A" ;;
           set_adb_ready false ;;
           write ("[red]ERROR: '" ++ ADB_PATH
                  ++ "' command not found. Please install `android-tools` package.[/red]")
       | Exception e =>
           set_adb_status "[red]Connection Error[/red]" ;;
           set_device_info "N/A" ;;
           set_adb_ready false ;;
           write ("[red]An error occurred during ADB check: " ++ e ++ "[/red]")
       end).

(** The group of the link pattern: [usb\d+|rndis\d+|enp\S+u\d+] *)
Definition name_re : Re.regex :=
  Re.Alt (Re.Cat (Re.Lit "usb") (Re.plus Re.Digit))
         (Re.Alt (Re.Cat (Re.Lit "rndis") (Re.plus Re.Digit))
                 (Re.cat [Re.Lit "enp"; Re.plus Re.NonSpace;
                          Re.Lit "u"; Re.plus Re.Digit])).

(** [r'\d+: (usb\d+|rndis\d+|enp\S+u\d+): <.*BROADCAST,MULTICAST,UP.*>'] *)
Definition link_re : Re.regex :=
  Re.cat [ Re.plus Re.Digit; Re.Lit ": "; Re.Grp name_re;
           Re.Lit ": <"; Re.star Re.Dot; Re.Lit "BROADCAST,MULTICAST,UP";
           Re.star Re.Dot; Re.Lit ">" ].

(** [r'inet (\d{1,3}\.\d{1,3}\.\d{1,3}\.\d{1,3})'] *)
Definition inet_re : Re.regex :=
  let octet := Re.Rep Re.Digit 1 (Some 3) in
  Re.Cat (Re.Lit "inet ")
         (Re.Grp (Re.cat [octet; Re.Lit "."; octet; Re.Lit "."; octet; Re.Lit "."; octet])).

(** [m.group(1)] inside an f-string: a group that took no part prints as None. *)
Definition group1_str (m : Re.match_object) : string :=
  match m with
  | Some s => s
  | None => "None"
  end.

(** [get_linux_interface_status()].  A match object whose group 1 is unset
    would make the second spawn raise a TypeError; [link_re] always sets it. *)
Definition get_linux_interface_status : M unit :=
  try_except
    (proc <- create_subprocess_exec ["ip"; "link"; "show"] ;;
     let output := Py.strip (stdout proc) in
     match Re.search link_re output with
     | Some m =>
         match m with
         | None => raise (Exception "TypeError")
         | Some interface_name =>
             ip_proc <- create_subprocess_exec
                          ["ip"; "-4"; "addr"; "show"; "dev"; interface_name] ;;
             let ip_output := Py.strip (stdout ip_proc) in
             match Re.search inet_re ip_output with
             | Some ip_match =>
                 set_linux_iface_status
                   ("[green]" ++ interface_name ++ " (IP: " ++ group1_str ip_match ++ ")[/green]") ;;
                 write ("[green]Linux interface '" ++ interface_name
                        ++ "' detected with IP: " ++ group1_str ip_match ++ ".[/green]")
             | None =>
                 set_linux_iface_status ("[yellow]" ++ interface_name ++ " (No IP)[/yellow]") ;;
                 write ("[yellow]Linux interface '" ++ interface_name
                        ++ "' detected, but no IP. Needs DHCP config.[/yellow]")
             end
         end
     | None =>
         set_linux_iface_status "[red]Not Detected[/red]" ;;
         write "[red]No active USB-related network interface found on Linux.[/red]"
     end)
    (fun e =>
       match e with
       | FileNotFoundError =>
           write "[red]ERROR: 'ip' command not found. Is 'iproute2' installed?[/red]" ;;
           set_linux_iface_status "[red]ERROR: 'ip' missing[/red]"
       | Exception e =>
           write ("[red]An error occurred during Linux interface check: " ++ e ++ "[/red]") ;;
           set_linux_iface_status "[red]Error Checking[/red]"
       end).

(** [action_refresh_status()] *)
Definition action_refresh_status : M unit :=
  write "[cyan]Refreshing status...[/cyan]" ;;
  check_adb_connection ;;
  get_linux_interface_status ;;
  write "[green]Status refreshed.[/green]".

(** The argument lists of the device-mutating commands. *)
Definition cmd_root : list string := ["root"].
Definition cmd_dun (v : string) : list string :=
  ["shell"; "settings"; "put"; "global"; "tether_dun_required"; v].
Definition cmd_usb (functions : string) : list string :=
  ["shell"; "svc"; "usb"; "setFunctions"; functions].
Definition cmd_offload (v : string) : list string :=
  ["shell"; "settings"; "put"; "global"; "tether_offload_disabled"; v].

(** [on_button_pressed(event)], with [button_id] standing for [event.button.id]. *)
Definition on_button_pressed (button_id : string) : M unit :=
  serial <- get_DEVICE_SERIAL ;;
  ready <- get_adb_ready ;;
  if negb (Py.truthy serial) || negb ready then
    write "[red]ADB not connected, authorized, or device not selected. Cannot perform action.[/red]"
  else if String.eqb button_id "enable-btn" then
    write "[bold green]Attempting to ENABLE tethering...[/bold green]" ;;
    run_adb_command "Attempting ADB root" cmd_root ;;
    success <- run_adb_command "Set tether_dun_required to 0" (cmd_dun "0") ;;
    success <- (if success
                then run_adb_command "Set USB functions to RNDIS" (cmd_usb "rndis")
                else ret success) ;;
    (if success
     then run_adb_command "Disable tether_offload" (cmd_offload "1") ;; ret tt
     else ret tt) ;;
    write "[bold green]Tethering commands sent. Refreshing status.[/bold green]" ;;
    action_refresh_status ;;
    write "[dim]Reminder: You might need to manually configure DHCP on the new Linux interface.[/dim]"
  else if String.eqb button_id "disable-btn" then
    write "[bold yellow]Attempting to DISABLE tethering...[/bold yellow]" ;;
    success <- run_adb_command "Restore tether_offload_disabled to 0" (cmd_offload "0") ;;
    success <- (if success
                then run_adb_command "Restore tether_dun_required to 1" (cmd_dun "1")
                else ret success) ;;
    (if success
     then run_adb_command "Restore default USB functions (MTP, ADB)" (cmd_usb "mtp,adb") ;; ret tt
     else ret tt) ;;
    write "[bold yellow]Tethering deactivation commands sent. Refreshing status.[/bold yellow]" ;;
    action_refresh_status
  else if String.eqb button_id "refresh-btn" then
    action_refresh_status
  else
    ret tt.

(** What the event loop delivers: the five-second timer (and the [r] key
    binding) call [action_refresh_status], a button press calls
    [on_button_pressed]. *)
Inductive event :=
| Refresh
| Pressed (button_id : string).

Definition handle (ev : event) : M unit :=
  match ev with
  | Refresh => action_refresh_status
  | Pressed button_id => on_button_pressed button_id
  end.

(** The state after a whole sequence of events.  Only the state is carried
    from one event to the next: no handler lets an exception escape (every
    spawn sits in a [try] block; see [handle_returns]). *)
Fixpoint run_events (evs : list event) (st : State) : State :=
  match evs with
  | [] => st
  | ev :: evs' => run_events evs' (snd (handle ev st))
  end.

(** ** Vocabulary of the properties *)

(** [runs w l w']: spawning the commands of [l] in turn from world [w] gives
    the recorded results and ends in world [w']. *)
Inductive runs : World -> list (argv * spawn_result) -> World -> Prop :=
| runs_nil w : runs w [] w
| runs_cons w a r w' l w'' :
    exec a w = (r, w') -> runs w' l w'' -> runs w ((a, r) :: l) w''.

(** The reactive attributes a refresh computes: connection status, device
    line, readiness (the device record) and the interface status. *)
Definition device_record (st : State) : string * string * bool :=
  (adb_status st, device_info st, adb_ready st).

(** The argument vectors spawned between two states. *)
Definition spawned_between (st st' : State) : list argv :=
  map fst (skipn (List.length (exec_log st)) (exec_log st')).

(** The specification's reading of a line of [adb devices], to compare with
    [is_device_line]: the line is [serial TAB state], the header line is
    skipped, and the line counts as an attached device when its state field
    contains the text device. *)
Definition state_field (line : string) : option string :=
  match Py.split Py.TAB line with
  | _ :: state :: _ => Some state
  | _ => None
  end.

Definition device_state_line (line : string) : bool :=
  negb (Py.str_in "List of devices attached" line)
  && match state_field line with
     | Some state => Py.str_in "device" state
     | None => false
     end.

Definition serial_field (line : string) : string :=
  Py.item0 (Py.split Py.TAB line).

(** Between [st] and [st'] the command [a] was spawned and returned 0. *)
Definition step_succeeded (st st' : State) (a : argv) : Prop :=
  exists r, In (a, r) (skipn (List.length (exec_log st)) (exec_log st'))
            /\ succeeded r = true.

(** The serial a discovery pass settles on, if any: the configured one when
    it is listed, the only listed one when none is configured. *)
Definition resolved_serial (configured : string) (devices : list string) : option string :=
  match devices with
  | [] => None
  | device0 :: rest =>
      if Py.truthy configured then
        if Py.list_in configured devices then Some configured else None
      else
        match rest with
        | [] => Some device0
        | _ :: _ => None
        end
  end.

(** [framed ok st st']: going from [st] to [st'] a bound serial is kept, the
    record of spawned processes only grows, the world is the one those
    processes leave, and each of them satisfies [ok]. *)
Definition framed (ok : argv -> bool) (st st' : State) : Prop :=
  (DEVICE_SERIAL st <> "" -> DEVICE_SERIAL st' = DEVICE_SERIAL st) /\
  exists l, exec_log st' = exec_log st ++ l /\
            runs (world st) l (world st') /\
            forallb (fun e => ok (fst e)) l = true.

(** What the authorization probe, and the handlers around it, make of the
    answer to [adb -s SERIAL shell echo test]. *)
Definition authorization_record (answer : spawn_result) (serial : string)
  : string * string * bool :=
  match answer with
  | Exited _ _ err =>
      if Py.str_in "device unauthorized" err
      then ("[red]Auth Failed[/red]", serial, false)
      else ("[green]Connected[/green]", serial, true)
  | NotFound => ("[red]ERROR: ADB command not found[/red]", "N/A", false)
  | Failed _ => ("[red]Connection Error[/red]", "N/A", false)
  end.

(** The serial and the device record [check_adb_connection] ends with, as a
    function of the serial it starts with and of what the bridge answers. *)
Definition discovery (w : World) (serial : string) : string * (string * string * bool) :=
  let probe s := fst (exec ["adb"; "-s"; s; "shell"; "echo"; "test"] w) in
  match fst (exec ["adb"; "devices"] w) with
  | Exited _ out _ =>
      match devices_of (Py.strip out) with
      | [] => (serial, ("[red]Disconnected[/red]", "N/A", false))
      | device0 :: rest =>
          if Py.truthy serial then
            if Py.list_in serial (device0 :: rest)
            then (serial, authorization_record (probe serial) serial)
            else (serial, ("[red]Specified Device Not Found[/red]", serial, false))
          else
            match rest with
            | [] => (device0, authorization_record (probe device0) device0)
            | _ :: _ =>
                (serial,
                 ("[yellow]Multiple Devices[/yellow]",
                  ("Please specify serial (found: "
                   ++ Py.join ", " (device0 :: rest) ++ ")")%string,
                  false))
            end
      end
  | NotFound => (serial, ("[red]ERROR: ADB command not found[/red]", "N/A", false))
  | Failed _ => (serial, ("[red]Connection Error[/red]", "N/A", false))
  end.

End App.

Arguments mkState {World}.
Arguments DEVICE_SERIAL {World}.
Arguments adb_status {World}.
Arguments device_info {World}.
Arguments linux_iface_status {World}.
Arguments adb_ready {World}.
Arguments rich_log {World}.
Arguments world {World}.
Arguments exec_log {World}.
Arguments initial {World}.
Arguments device_record {World}.
Arguments spawned_between {World}.
Arguments step_succeeded {World}.
Arguments framed {World}.
Arguments discovery {World}.
Arguments runs {World}.
Arguments run_adb_command {World}.
Arguments create_subprocess_exec {World}.
Arguments authorization_check {World}.
Arguments check_adb_connection {World}.
Arguments get_linux_interface_status {World}.
Arguments action_refresh_status {World}.
Arguments on_button_pressed {World}.
Arguments handle {World}.
Arguments run_events {World}.

(** ** What the two patterns denote, spelled out *)

Definition digits (s : string) : Prop :=
  Re.all_in Re.Digit s = true /\ 1 <= String.length s.

Definition octet (s : string) : Prop :=
  Re.all_in Re.Digit s = true /\ 1 <= String.length s /\ String.length s <= 3.

(** usb0, rndis0, enp0s20f0u1, ... *)
Definition link_name (name : string) : Prop :=
  (exists d, name = ("usb" ++ d)%string /\ digits d) \/
  (exists d, name = ("rndis" ++ d)%string /\ digits d) \/
  (exists x d, name = ("enp" ++ x ++ "u" ++ d)%string /\
               Re.all_in Re.NonSpace x = true /\ 1 <= String.length x /\ digits d).

(** [m] is a link header with the name [name]: number, name, and inside
    the angle brackets, without a line feed in between, the unbroken text
    BROADCAST,MULTICAST,UP. *)
Definition link_text (m name : string) : Prop :=
  exists idx before after,
    m = (idx ++ ": " ++ name ++ ": <" ++ before ++ "BROADCAST,MULTICAST,UP"
             ++ after ++ ">")%string /\
    digits idx /\ link_name name /\
    Re.all_in Re.Dot before = true /\ Re.all_in Re.Dot after = true.

(** [m] is the word inet, a blank and the dotted address [ip]. *)
Definition inet_text (m ip : string) : Prop :=
  exists a b c d,
    m = ("inet " ++ ip)%string /\ ip = (a ++ "." ++ b ++ "." ++ c ++ "." ++ d)%string /\
    octet a /\ octet b /\ octet c /\ octet d.

(** [leftmost P s x]: the text [s] has a part [m] with [P m x], and no part
    that satisfies [P] starts further left.  [absent P s]: no part of [s]
    satisfies [P]. *)
Definition leftmost (P : string -> string -> Prop) (s x : string) : Prop :=
  exists pre m post,
    s = (pre ++ m ++ post)%string /\ P m x /\
    forall pre' m' post' x',
      s = (pre' ++ m' ++ post')%string -> P m' x' ->
      String.length pre <= String.length pre'.

Definition absent (P : string -> string -> Prop) (s : string) : Prop :=
  forall pre m post x, s = (pre ++ m ++ post)%string -> ~ P m x.

(** ** The specification's reading of a link listing

    To compare with the pattern of [get_linux_interface_status]: a link line
    is [N: NAME: <FLAG,FLAG,...> ...]; the link is a candidate when its name
    follows the naming convention of the program's pattern and its flags
    include BROADCAST, MULTICAST and UP; the first candidate listed is
    selected. *)

(** The text without its last character. *)
Fixpoint chop (s : string) : string :=
  match s with
  | EmptyString => EmptyString
  | String c EmptyString => EmptyString
  | String c s' => String c (chop s')
  end.

Definition link_of_line (line : string) : option (string * list string) :=
  match Py.split " " line with
  | _ :: name_colon :: String "<" flags :: _ =>
      Some (chop name_colon, Py.split "," (chop flags))
  | _ => None
  end.

Definition spec_candidate (line : string) : option string :=
  match link_of_line line with
  | Some (name, flags) =>
      if Re.fullmatch name_re name
         && Py.list_in "BROADCAST" flags && Py.list_in "MULTICAST" flags
         && Py.list_in "UP" flags
      then Some name else None
  | None => None
  end.

Fixpoint first_some {A B} (f : A -> option B) (l : list A) : option B :=
  match l with
  | [] => None
  | x :: l' => match f x with
               | Some y => Some y
               | None => first_some f l'
               end
  end.

Definition spec_selected_link (listing : string) : option string :=
  first_some spec_candidate (Py.split Py.LF listing).

(** ** Worlds to run the program on *)

Module Scenario.

Definition NL : string := String Py.LF "".
Definition HT : string := String Py.TAB "".

Definition usb0_listing : string :=
  "1: lo: <LOOPBACK,UP,LOWER_UP> mtu 65536 qdisc noqueue state UNKNOWN mode DEFAULT group default qlen 1000"
  ++ NL ++ "    link/loopback 00:00:00:00:00:00 brd 00:00:00:00:00:00"
  ++ NL ++ "3: usb0: <BROADCAST,MULTICAST,UP,LOWER_UP> mtu 1500 qdisc fq_codel state UNKNOWN mode DEFAULT group default qlen 1000"
  ++ NL ++ "    link/ether 0a:1b:2c:3d:4e:5f brd ff:ff:ff:ff:ff:ff" ++ NL.

Definition usb0_addresses : string :=
  "3: usb0: <BROADCAST,MULTICAST,UP,LOWER_UP> mtu 1500 qdisc fq_codel state UNKNOWN group default qlen 1000"
  ++ NL ++ "    inet 192.168.42.1/24 brd 192.168.42.255 scope global dynamic usb0"
  ++ NL ++ "       valid_lft 3599sec preferred_lft 3599sec" ++ NL.

(** One authorized phone, ABC123.  The world is the USB function of the
    phone; [adb root] is refused, every setting is accepted, and the host
    shows the link usb0 with an address. *)
Definition phone_answer (a : argv) : spawn_result :=
  if argv_eqb a ["adb"; "devices"] then
    Exited 0 ("List of devices attached" ++ NL ++ "ABC123" ++ HT ++ "device" ++ NL ++ NL) ""
  else if argv_eqb a ["adb"; "-s"; "ABC123"; "shell"; "echo"; "test"] then
    Exited 0 ("test" ++ NL) ""
  else if argv_eqb a ["adb"; "-s"; "ABC123"; "root"] then
    Exited 1 "" ("adbd cannot run as root in production builds" ++ NL)
  else if argv_eqb (firstn 7 a) ["adb"; "-s"; "ABC123"; "shell"; "settings"; "put"; "global"] then
    Exited 0 "" ""
  else if argv_eqb (firstn 7 a) ["adb"; "-s"; "ABC123"; "shell"; "svc"; "usb"; "setFunctions"] then
    Exited 0 "" ""
  else if argv_eqb a ["ip"; "link"; "show"] then
    Exited 0 usb0_listing ""
  else if argv_eqb a ["ip"; "-4"; "addr"; "show"; "dev"; "usb0"] then
    Exited 0 usb0_addresses ""
  else NotFound.

Definition phone_exec (a : argv) (usb : string) : spawn_result * string :=
  (phone_answer a, if is_set_functions a then nth 7 a usb else usb).

(** The phone at start-up, and after the first refresh. *)
Definition phone_start : State string := initial "" "mtp,adb".
Definition phone_ready : State string :=
  snd (action_refresh_status phone_exec phone_start).

(** The same phone with its settings locked: every [settings put] is
    refused with return code 255. *)
Definition locked_exec (a : argv) (usb : string) : spawn_result * string :=
  if argv_eqb (firstn 7 a) ["adb"; "-s"; "ABC123"; "shell"; "settings"; "put"; "global"]
  then (Exited 255 "" ("Security exception: Permission denial" ++ NL), usb)
  else phone_exec a usb.

Definition locked_ready : State string :=
  snd (action_refresh_status locked_exec phone_start).

(** Two authorized phones and no configured serial. *)
Definition two_phones_exec (a : argv) (w : unit) : spawn_result * unit :=
  if argv_eqb a ["adb"; "devices"] then
    (Exited 0 ("List of devices attached" ++ NL ++ "ABC123" ++ HT ++ "device"
               ++ NL ++ "DEF456" ++ HT ++ "device" ++ NL ++ NL) "", tt)
  else (NotFound, tt).

(** One phone that has not granted authorization. *)
Definition unauthorized_exec (a : argv) (w : unit) : spawn_result * unit :=
  if argv_eqb a ["adb"; "devices"] then
    (Exited 0 ("List of devices attached" ++ NL ++ "ABC123" ++ HT ++ "unauthorized"
               ++ NL ++ NL) "", tt)
  else (NotFound, tt).

(** One phone, offline, whose serial is device01; a shell command to it
    fails with return code 1. *)
Definition offline_listing : string :=
  "List of devices attached" ++ NL ++ "device01" ++ HT ++ "offline" ++ NL ++ NL.

Definition offline_exec (a : argv) (w : unit) : spawn_result * unit :=
  if argv_eqb a ["adb"; "devices"] then (Exited 0 offline_listing "", tt)
  else if argv_eqb a ["adb"; "-s"; "device01"; "shell"; "echo"; "test"] then
    (Exited 1 "" ("error: device offline" ++ NL), tt)
  else (NotFound, tt).

(** A host whose link usb0 is up and in promiscuous mode. *)
Definition promisc_listing : string :=
  "3: usb0: <BROADCAST,MULTICAST,PROMISC,UP,LOWER_UP> mtu 1500 qdisc fq_codel state UNKNOWN mode DEFAULT group default qlen 1000"
  ++ NL ++ "    link/ether 0a:1b:2c:3d:4e:5f brd ff:ff:ff:ff:ff:ff" ++ NL.

Definition promisc_exec (a : argv) (w : unit) : spawn_result * unit :=
  if argv_eqb a ["ip"; "link"; "show"] then (Exited 0 promisc_listing "", tt)
  else if argv_eqb a ["ip"; "-4"; "addr"; "show"; "dev"; "usb0"] then
    (Exited 0 usb0_addresses "", tt)
  else (NotFound, tt).

(** The example of the specification: the listing is the one line, the
    address query answers the one line. *)
Definition example_exec (a : argv) (w : unit) : spawn_result * unit :=
  if argv_eqb a ["ip"; "link"; "show"] then
    (Exited 0 "3: usb0: <BROADCAST,MULTICAST,UP,LOWER_UP> mtu 1500" "", tt)
  else if argv_eqb a ["ip"; "-4"; "addr"; "show"; "dev"; "usb0"] then
    (Exited 0 "inet 192.168.42.1/24" "", tt)
  else (NotFound, tt).

(** A host without the [ip] tool. *)
Definition no_ip_exec (a : argv) (w : unit) : spawn_result * unit := (NotFound, tt).

(** One phone listed as a device whose authorization has been revoked: the
    probe is refused. *)
Definition revoked_exec (a : argv) (w : unit) : spawn_result * unit :=
  if argv_eqb a ["adb"; "devices"] then
    (Exited 0 ("List of devices attached" ++ NL ++ "ABC123" ++ HT ++ "device"
               ++ NL ++ NL) "", tt)
  else if argv_eqb a ["adb"; "-s"; "ABC123"; "shell"; "echo"; "test"] then
    (Exited 1 "" ("error: device unauthorized." ++ NL), tt)
  else (NotFound, tt).

End Scenario.

(** ** Start-up

    [on_mount()]: [set_interval(5, self.action_refresh_status)] registers the
    timer, whose ticks are the [Refresh] events, and the first refresh is run
    at once.  The application starts from the class attributes and the
    configuration block ([DEVICE_SERIAL = ""]). *)
Definition on_mount {World : Type} (exec : argv -> World -> spawn_result * World)
  : M World unit :=
  action_refresh_status exec.

Definition startup {World : Type} (w : World) : State World := initial "" w.

(** The application run: start-up, then the events in turn. *)
Definition app_run {World : Type} (exec : argv -> World -> spawn_result * World)
           (w : World) (evs : list event) : State World :=
  run_events exec evs (snd (on_mount exec (startup w))).

(** The record the handlers of [check_adb_connection] leave for a spawn that
    raised. *)
Definition spawn_failure_record (r : spawn_result) : option (string * string * bool) :=
  match r with
  | Exited _ _ _ => None
  | NotFound => Some ("[red]ERROR: ADB command not found[/red]", "N/A", false)
  | Failed _ => Some ("[red]Connection Error[/red]", "N/A", false)
  end.

(** The argument lists a button press can send to the device. *)
Definition device_commands : list (list string) :=
  [cmd_root; cmd_dun "0"; cmd_usb "rndis"; cmd_offload "1";
   cmd_offload "0"; cmd_dun "1"; cmd_usb "mtp,adb"].

(** A device command sent with [-s] to the given serial. *)
Definition addressed (serial : string) (a : argv) : Prop :=
  exists args, In args device_commands /\ a = "adb" :: "-s" :: serial :: args.

(** ** The listing [adb devices] prints

    The header line, one row [SERIAL TAB STATE] for each device, and an empty
    line at the end.  A serial and a state are words: not empty, no white
    space. *)
Definition word (w : string) : Prop :=
  w <> "" /\ Re.all_in Re.NonSpace w = true.

Definition row (e : string * string) : string :=
  fst e ++ String Py.TAB (snd e).

Fixpoint rows (entries : list (string * string)) : string :=
  match entries with
  | [] => ""
  | e :: es => String Py.LF (row e) ++ rows es
  end.

Definition adb_listing (entries : list (string * string)) : string :=
  "List of devices attached" ++ rows entries ++ String Py.LF (String Py.LF "").

(** No line boundary of [str.splitlines] occurs in the text. *)
Fixpoint one_line (s : string) : bool :=
  match s with
  | EmptyString => true
  | String c s' => negb (Py.islinebreak c) && one_line s'
  end.

(** * Properties *)

(** ** The matcher finds what the pattern denotes *)

Lemma append_assoc (a b c : string) : ((a ++ b) ++ c = a ++ (b ++ c))%string.
Proof. induction a as [ | x a IH]; simpl; [ | rewrite IH]; reflexivity. Qed.

Lemma length_append (a b : string) :
  String.length (a ++ b) = String.length a + String.length b.
Proof. induction a as [ | x a IH]; simpl; [ | rewrite IH]; reflexivity. Qed.

Lemma substring_whole_prefix (m s : string) :
  String.substring 0 (String.length m) (m ++ s) = m.
Proof.
  induction m as [ | x m IH]; simpl.
  - destruct s; reflexivity.
  - rewrite IH. reflexivity.
Qed.

Lemma consumed_append (m s : string) : Re.consumed (m ++ s) s = m.
Proof.
  unfold Re.consumed. rewrite length_append.
  replace (String.length m + String.length s - String.length s)
    with (String.length m) by lia.
  apply substring_whole_prefix.
Qed.

Lemma strip_prefix_sound l s s' :
  Re.strip_prefix l s = Some s' -> s = (l ++ s')%string.
Proof.
  revert s; induction l as [ | a l IH]; simpl; intros s H.
  - congruence.
  - destruct s as [ | b s]; [discriminate | ].
    destruct (Ascii.eqb a b) eqn:E; [ | discriminate].
    apply Ascii.eqb_eq in E. subst b. rewrite (IH _ H). reflexivity.
Qed.

Lemma strip_prefix_complete l s : Re.strip_prefix l (l ++ s) = Some s.
Proof.
  induction l as [ | a l IH]; simpl; [reflexivity | ].
  rewrite Ascii.eqb_refl. exact IH.
Qed.

Lemma fits_zero hi : Re.fits hi 0 = true.
Proof. destruct hi; reflexivity. Qed.

Lemma rep_sound {A} c s : forall lo hi (k : string -> option A) x,
  Re.rep c lo hi s k = Some x ->
  exists m rest,
    s = (m ++ rest)%string /\ Re.all_in c m = true /\
    lo <= String.length m /\ Re.fits hi (String.length m) = true /\
    k rest = Some x.
Proof.
  induction s as [ | a s IH]; intros lo hi k x H; simpl in H.
  - destruct (Nat.eqb_spec lo 0); [ | discriminate].
    exists ""%string, ""%string. subst. simpl. rewrite fits_zero. auto.
  - assert (Stop : (if lo =? 0 then k (String a s) else None) = Some x ->
                   exists m rest,
                     String a s = (m ++ rest)%string /\ Re.all_in c m = true /\
                     lo <= String.length m /\ Re.fits hi (String.length m) = true /\
                     k rest = Some x).
    { intros K. destruct (Nat.eqb_spec lo 0); [ | discriminate].
      exists ""%string, (String a s). subst. simpl. rewrite fits_zero. auto. }
    destruct (Re.cls_mem c a && Re.more_allowed hi) eqn:C; [ | exact (Stop H)].
    destruct (Re.rep c (Nat.pred lo) (option_map Nat.pred hi) s k) as [y | ] eqn:R;
      [ | exact (Stop H)].
    injection H as ->.
    destruct (IH _ _ _ _ R) as (m & rest & -> & Hall & Hlo & Hhi & Hk).
    apply andb_true_iff in C as [Ca Cm].
    exists (String a m), rest. simpl. rewrite Ca, Hall.
    repeat split; auto; [lia | ].
    destruct hi as [[ | h] | ]; simpl in *; try discriminate; auto.
Qed.

Lemma rep_complete {A} c m : forall lo hi rest (k : string -> option A),
  Re.all_in c m = true -> lo <= String.length m ->
  Re.fits hi (String.length m) = true -> k rest <> None ->
  Re.rep c lo hi (m ++ rest) k <> None.
Proof.
  induction m as [ | a m IH]; intros lo hi rest k Hall Hlo Hhi Hk; simpl in *.
  - assert (lo = 0) as -> by lia.
    destruct rest as [ | b rest]; simpl; [exact Hk | ].
    destruct (Re.cls_mem c b && Re.more_allowed hi); [ | exact Hk].
    destruct (Re.rep c 0 (option_map Nat.pred hi) rest k); [discriminate | exact Hk].
  - apply andb_true_iff in Hall as [Ca Hall]. rewrite Ca.
    assert (Re.more_allowed hi = true) as ->.
    { destruct hi as [[ | h] | ]; simpl in *; auto. }
    simpl.
    assert (R : Re.rep c (Nat.pred lo) (option_map Nat.pred hi) (m ++ rest) k <> None).
    { apply IH; auto; [lia | ].
      destruct hi as [[ | h] | ]; simpl in *; auto; discriminate. }
    destruct (Re.rep c (Nat.pred lo) (option_map Nat.pred hi) (m ++ rest) k);
      [discriminate | congruence].
Qed.

Lemma rmatch_sound {A} r : forall s g (k : string -> option string -> option A) x,
  Re.rmatch r s g k = Some x ->
  exists m rest g',
    s = (m ++ rest)%string /\ Re.matches r m g g' /\ k rest g' = Some x.
Proof.
  induction r as [l | c lo hi | r1 IH1 r2 IH2 | r1 IH1 r2 IH2 | r1 IH1];
    intros s g k x H; simpl in H.
  - destruct (Re.strip_prefix l s) as [s' | ] eqn:P; [ | discriminate].
    apply strip_prefix_sound in P.
    exists l, s', g. repeat split; auto. constructor.
  - apply rep_sound in H as (m & rest & -> & Hall & Hlo & Hhi & Hk).
    exists m, rest, g. repeat split; auto. constructor; auto.
  - apply IH1 in H as (m1 & rest1 & g1 & -> & M1 & H).
    apply IH2 in H as (m2 & rest & g2 & -> & M2 & H).
    exists (m1 ++ m2)%string, rest, g2. rewrite append_assoc.
    repeat split; auto. econstructor; eauto.
  - destruct (Re.rmatch r1 s g k) as [y | ] eqn:R1.
    + injection H as ->. apply IH1 in R1 as (m & rest & g' & -> & M & K).
      exists m, rest, g'. repeat split; auto. apply Re.m_alt_l, M.
    + apply IH2 in H as (m & rest & g' & -> & M & K).
      exists m, rest, g'. repeat split; auto. apply Re.m_alt_r, M.
  - apply IH1 in H as (m & rest & g1 & -> & M & K).
    rewrite consumed_append in K.
    exists m, rest, (Some m). repeat split; auto. econstructor; eauto.
Qed.

Lemma rmatch_complete {A} r m g g' :
  Re.matches r m g g' ->
  forall rest (k : string -> option string -> option A),
    (forall h, k rest h <> None) ->
    forall h, Re.rmatch r (m ++ rest) h k <> None.
Proof.
  induction 1 as [l g | c lo hi m g Hall Hlo Hhi | r1 r2 m1 m2 g g1 g2 M1 IH1 M2 IH2
                 | r1 r2 m g g' M IH | r1 r2 m g g' M IH | r m g g1 M IH];
    intros rest k Hk h; simpl.
  - rewrite strip_prefix_complete. apply Hk.
  - apply rep_complete; auto.
  - rewrite append_assoc. apply IH1. intros h'. apply IH2, Hk.
  - specialize (IH rest k Hk h).
    destruct (Re.rmatch r1 (m ++ rest) h k); [discriminate | congruence].
  - destruct (Re.rmatch r1 (m ++ rest) h k); [discriminate | apply IH, Hk].
  - apply IH. intros _. apply Hk.
Qed.

Lemma search_none r s : Re.search r s = None -> Re.no_match r s.
Proof.
  induction s as [ | c s IH]; simpl; intros H pre m post g E M.
  - destruct (Re.rmatch r "" None (fun _ g0 => Some g0)) eqn:R; [discriminate | ].
    destruct pre; [ | discriminate]. simpl in E.
    revert R. rewrite E. apply (rmatch_complete _ _ _ _ M). discriminate.
  - destruct (Re.rmatch r (String c s) None (fun _ g0 => Some g0)) eqn:R;
      [discriminate | ].
    destruct pre as [ | d pre]; simpl in E.
    + revert R. rewrite E. apply (rmatch_complete _ _ _ _ M). discriminate.
    + injection E as -> E. exact (IH H pre m post g E M).
Qed.

Lemma search_some r s g : Re.search r s = Some g -> Re.first_match r s g.
Proof.
  revert g; induction s as [ | c s IH]; simpl; intros g H.
  - destruct (Re.rmatch r "" None (fun _ g0 => Some g0)) as [y | ] eqn:R;
      [ | discriminate].
    injection H as ->.
    apply rmatch_sound in R as (m & rest & g' & E & M & [= ->]).
    exists ""%string, m, rest. repeat split; auto. simpl. lia.
  - destruct (Re.rmatch r (String c s) None (fun _ g0 => Some g0)) as [y | ] eqn:R.
    + injection H as ->.
      apply rmatch_sound in R as (m & rest & g' & E & M & [= ->]).
      exists ""%string, m, rest. repeat split; auto. simpl. lia.
    + destruct (IH _ H) as (pre & m & post & E & M & Least).
      exists (String c pre), m, post. subst s. repeat split; auto.
      intros pre' m' post' g' E' M'.
      destruct pre' as [ | d pre']; simpl in E'.
      * exfalso. revert R. rewrite E'.
        apply (rmatch_complete _ _ _ _ M'). discriminate.
      * injection E' as -> E'. simpl.
        specialize (Least _ _ _ _ E' M'). lia.
Qed.

Lemma no_match_search r s : Re.no_match r s -> Re.search r s = None.
Proof.
  intros N. destruct (Re.search r s) as [g | ] eqn:S; [ | reflexivity].
  destruct (search_some _ _ _ S) as (pre & m & post & E & M & _).
  destruct (N _ _ _ _ E M).
Qed.

Lemma matches_lit_inv l m g g' :
  Re.matches (Re.Lit l) m g g' -> m = l /\ g' = g.
Proof. inversion 1; subst; auto. Qed.

Lemma matches_rep_inv c lo hi m g g' :
  Re.matches (Re.Rep c lo hi) m g g' ->
  g' = g /\ Re.all_in c m = true /\ lo <= String.length m /\
  Re.fits hi (String.length m) = true.
Proof. inversion 1; subst; auto. Qed.

Lemma matches_cat_inv r1 r2 m g g' :
  Re.matches (Re.Cat r1 r2) m g g' ->
  exists m1 m2 g1,
    m = (m1 ++ m2)%string /\ Re.matches r1 m1 g g1 /\ Re.matches r2 m2 g1 g'.
Proof. inversion 1; subst; eauto 6. Qed.

Lemma matches_grp_inv r m g g' :
  Re.matches (Re.Grp r) m g g' -> g' = Some m /\ exists g1, Re.matches r m g g1.
Proof. inversion 1; subst; eauto. Qed.

(** Both patterns of the program set group 1 whenever they match. *)
Lemma link_re_captures m g g' :
  Re.matches link_re m g g' -> exists name, g' = Some name.
Proof.
  unfold link_re, Re.cat, Re.plus, Re.star. intros H.
  apply matches_cat_inv in H as (m1 & r1 & g1 & _ & _ & H).
  apply matches_cat_inv in H as (m2 & r2 & g2 & _ & _ & H).
  apply matches_cat_inv in H as (m3 & r3 & g3 & _ & G & H).
  apply matches_grp_inv in G as [-> _].
  apply matches_cat_inv in H as (m4 & r4 & g4 & _ & L4 & H).
  apply matches_lit_inv in L4 as [_ ->].
  apply matches_cat_inv in H as (m5 & r5 & g5 & _ & L5 & H).
  apply matches_rep_inv in L5 as [-> _].
  apply matches_cat_inv in H as (m6 & r6 & g6 & _ & L6 & H).
  apply matches_lit_inv in L6 as [_ ->].
  apply matches_cat_inv in H as (m7 & r7 & g7 & _ & L7 & H).
  apply matches_rep_inv in L7 as [-> _].
  apply matches_lit_inv in H as [_ ->].
  eauto.
Qed.

Lemma inet_re_captures m g g' :
  Re.matches inet_re m g g' -> exists ip, g' = Some ip.
Proof.
  unfold inet_re. intros H.
  apply matches_cat_inv in H as (m1 & r1 & g1 & _ & _ & H).
  apply matches_grp_inv in H as [-> _]. eauto.
Qed.

Lemma matches_alt_inv r1 r2 m g g' :
  Re.matches (Re.Alt r1 r2) m g g' -> Re.matches r1 m g g' \/ Re.matches r2 m g g'.
Proof. inversion 1; subst; auto. Qed.

Lemma matches_plus_digit m g g' :
  Re.matches (Re.plus Re.Digit) m g g' <-> (g' = g /\ digits m).
Proof.
  unfold Re.plus, digits. split.
  - intros H. apply matches_rep_inv in H as (-> & A & L & _). auto.
  - intros (-> & A & L). constructor; auto.
Qed.

Lemma matches_name_re name g g' :
  Re.matches name_re name g g' <-> (g' = g /\ link_name name).
Proof.
  unfold name_re, link_name, Re.cat. split.
  - intros H. apply matches_alt_inv in H as [H | H];
      [ | apply matches_alt_inv in H as [H | H] ].
    + apply matches_cat_inv in H as (m1 & m2 & g1 & -> & L & D).
      apply matches_lit_inv in L as [-> ->].
      apply matches_plus_digit in D as [-> D]. eauto.
    + apply matches_cat_inv in H as (m1 & m2 & g1 & -> & L & D).
      apply matches_lit_inv in L as [-> ->].
      apply matches_plus_digit in D as [-> D]. eauto 6.
    + apply matches_cat_inv in H as (m1 & r1 & g1 & -> & L1 & H).
      apply matches_lit_inv in L1 as [-> ->].
      apply matches_cat_inv in H as (x & r2 & g2 & -> & X & H).
      apply matches_rep_inv in X as (-> & Xa & Xl & _).
      apply matches_cat_inv in H as (m3 & d & g3 & -> & L3 & D).
      apply matches_lit_inv in L3 as [-> ->].
      apply matches_plus_digit in D as [-> D].
      split; [reflexivity | ]. right; right. exists x, d. auto.
  - intros (-> & [(d & -> & D) | [(d & -> & D) | (x & d & -> & Xa & Xl & D)]]).
    + apply Re.m_alt_l. econstructor; [constructor | apply matches_plus_digit; auto].
    + apply Re.m_alt_r, Re.m_alt_l.
      econstructor; [constructor | apply matches_plus_digit; auto].
    + apply Re.m_alt_r, Re.m_alt_r.
      econstructor; [constructor | ].
      econstructor; [constructor; auto | ].
      econstructor; [constructor | apply matches_plus_digit; auto].
Qed.

(** The link pattern denotes the link headers, and captures the name. *)
Lemma link_re_denotes m g g' :
  Re.matches link_re m g g' <-> exists name, g' = Some name /\ link_text m name.
Proof.
  unfold link_re, link_text, Re.cat, Re.star. split.
  - intros H.
    apply matches_cat_inv in H as (idx & r1 & g1 & -> & I & H).
    apply matches_plus_digit in I as [-> I].
    apply matches_cat_inv in H as (m2 & r2 & g2 & -> & L2 & H).
    apply matches_lit_inv in L2 as [-> ->].
    apply matches_cat_inv in H as (name & r3 & g3 & -> & G & H).
    apply matches_grp_inv in G as [-> (g4 & N)].
    apply matches_name_re in N as [_ N].
    apply matches_cat_inv in H as (m4 & r4 & g5 & -> & L4 & H).
    apply matches_lit_inv in L4 as [-> ->].
    apply matches_cat_inv in H as (before & r5 & g6 & -> & B & H).
    apply matches_rep_inv in B as (-> & B & _).
    apply matches_cat_inv in H as (m6 & r6 & g7 & -> & L6 & H).
    apply matches_lit_inv in L6 as [-> ->].
    apply matches_cat_inv in H as (after & r7 & g8 & -> & A & H).
    apply matches_rep_inv in A as (-> & A & _).
    apply matches_lit_inv in H as [-> ->].
    exists name. split; [reflexivity | ]. exists idx, before, after. auto 10.
  - intros (name & -> & idx & before & after & -> & I & N & B & A).
    econstructor; [apply matches_plus_digit; split; [reflexivity | exact I] | ].
    econstructor; [constructor | ].
    econstructor; [econstructor; apply matches_name_re; split; [reflexivity | exact N] | ].
    econstructor; [constructor | ].
    econstructor; [constructor; auto; lia | ].
    econstructor; [constructor | ].
    econstructor; [constructor; auto; lia | constructor].
Qed.

Lemma matches_octet m g g' :
  Re.matches (Re.Rep Re.Digit 1 (Some 3)) m g g' <-> (g' = g /\ octet m).
Proof.
  unfold octet. split.
  - intros H. apply matches_rep_inv in H as (-> & A & L & F).
    simpl in F. apply Nat.leb_le in F. auto.
  - intros (-> & A & L & F). constructor; auto. simpl. apply Nat.leb_le, F.
Qed.

(** The address pattern denotes inet followed by a dotted address, and
    captures the address. *)
Lemma inet_re_denotes m g g' :
  Re.matches inet_re m g g' <-> exists ip, g' = Some ip /\ inet_text m ip.
Proof.
  unfold inet_re, inet_text, Re.cat. split.
  - intros H.
    apply matches_cat_inv in H as (m1 & ip & g1 & -> & L & H).
    apply matches_lit_inv in L as [-> ->].
    apply matches_grp_inv in H as [-> (g2 & H)].
    apply matches_cat_inv in H as (a & r1 & h1 & -> & A & H).
    apply matches_octet in A as [-> A].
    apply matches_cat_inv in H as (p1 & r2 & h2 & -> & P1 & H).
    apply matches_lit_inv in P1 as [-> ->].
    apply matches_cat_inv in H as (b & r3 & h3 & -> & B & H).
    apply matches_octet in B as [-> B].
    apply matches_cat_inv in H as (p2 & r4 & h4 & -> & P2 & H).
    apply matches_lit_inv in P2 as [-> ->].
    apply matches_cat_inv in H as (c & r5 & h5 & -> & C & H).
    apply matches_octet in C as [-> C].
    apply matches_cat_inv in H as (p3 & d & h6 & -> & P3 & D).
    apply matches_lit_inv in P3 as [-> ->].
    apply matches_octet in D as [-> D].
    eexists. split; [reflexivity | ]. exists a, b, c, d. auto 10.
  - intros (ip & -> & a & b & c & d & -> & -> & A & B & C & D).
    econstructor; [constructor | ].
    econstructor.
    econstructor; [apply matches_octet; split; [reflexivity | assumption] | ].
    econstructor; [constructor | ].
    econstructor; [apply matches_octet; split; [reflexivity | assumption] | ].
    econstructor; [constructor | ].
    econstructor; [apply matches_octet; split; [reflexivity | assumption] | ].
    econstructor; [constructor | apply matches_octet; split; [reflexivity | assumption]].
Qed.

Lemma first_match_leftmost r (P : string -> string -> Prop) s x :
  (forall m g g', Re.matches r m g g' <-> exists y, g' = Some y /\ P m y) ->
  Re.first_match r s (Some x) -> leftmost P s x.
Proof.
  intros D (pre & m & post & E & M & Least).
  exists pre, m, post. split; [exact E | ]. split.
  - apply D in M as (y & [= <-] & Py). exact Py.
  - intros pre' m' post' x' E' P'. apply (Least pre' m' post' (Some x') E').
    apply D. eauto.
Qed.

Lemma no_match_absent r (P : string -> string -> Prop) s :
  (forall m g g', Re.matches r m g g' <-> exists y, g' = Some y /\ P m y) ->
  Re.no_match r s -> absent P s.
Proof.
  intros D N pre m post x E Pm. apply (N pre m post (Some x) E).
  apply D. eauto.
Qed.

Lemma first_match_captures r s :
  (forall m g g', Re.matches r m g g' -> exists x, g' = Some x) ->
  ~ Re.first_match r s None.
Proof.
  intros C (pre & m & post & _ & M & _).
  destruct (C _ _ _ M) as (x & X). discriminate.
Qed.


Section Properties.

Variable World : Type.
Variable exec : argv -> World -> spawn_result * World.

Implicit Types st : State World.

Ltac unfold_check :=
  unfold check_adb_connection, authorization_check, bind, try_except,
    get_DEVICE_SERIAL, write, create_subprocess_exec, ret,
    set_adb_status, set_device_info, set_adb_ready, set_DEVICE_SERIAL,
    device_record.

(** ** Spawned processes *)

Lemma runs_app (w1 w2 w3 : World) l1 l2 :
  runs exec w1 l1 w2 -> runs exec w2 l2 w3 -> runs exec w1 (l1 ++ l2) w3.
Proof.
  induction 1 as [w | w a r w' l w'' E H IH]; intros H2; simpl.
  - exact H2.
  - econstructor; [exact E | exact (IH H2)].
Qed.

Lemma runs_one (w : World) a :
  runs exec w [(a, fst (exec a w))] (snd (exec a w)).
Proof.
  econstructor; [ | constructor ].
  destruct (exec a w); reflexivity.
Qed.

(** [run_adb_command] never raises: it spawns exactly the full command,
    answers whether that returned 0, and touches only the log. *)
Lemma run_adb_command_run description command_args st :
  let cmd := full_command (DEVICE_SERIAL st) command_args in
  let r := fst (exec cmd (world st)) in
  exists lines,
    run_adb_command exec description command_args st =
    (Return (succeeded r),
     mkState (DEVICE_SERIAL st) (adb_status st) (device_info st)
             (linux_iface_status st) (adb_ready st) (rich_log st ++ lines)
             (snd (exec cmd (world st))) (exec_log st ++ [(cmd, r)])).
Proof.
  intros cmd r; subst cmd r.
  unfold run_adb_command, bind, try_except, get_DEVICE_SERIAL, write,
    create_subprocess_exec, when, ret; simpl.
  destruct (exec _ (world st)) as [[rc out err | | e] w']; simpl.
  - destruct (rc =? 0)%Z; simpl;
      destruct (Py.truthy out); simpl; try destruct (Py.truthy err); simpl;
      rewrite <- ?app_assoc; simpl; eexists; reflexivity.
  - rewrite <- ?app_assoc; simpl; eexists; reflexivity.
  - rewrite <- ?app_assoc; simpl; eexists; reflexivity.
Qed.

(** ** Frames: what a handler may touch *)

Lemma framed_refl ok st : framed exec ok st st.
Proof.
  split; [reflexivity | exists []; rewrite app_nil_r; repeat split; constructor].
Qed.

Lemma framed_trans ok st1 st2 st3 :
  framed exec ok st1 st2 -> framed exec ok st2 st3 -> framed exec ok st1 st3.
Proof.
  intros [S1 (l1 & L1 & R1 & O1)] [S2 (l2 & L2 & R2 & O2)]; split.
  - intros H. rewrite S2, S1; auto. rewrite S1; auto.
  - exists (l1 ++ l2). rewrite L2, L1, app_assoc, forallb_app, O1, O2.
    repeat split. eapply runs_app; eauto.
Qed.

Lemma framed_weaken (ok ok' : argv -> bool) st st' :
  (forall a, ok a = true -> ok' a = true) -> framed exec ok st st' -> framed exec ok' st st'.
Proof.
  intros H [S (l & L & R & O)]; split; [exact S | exists l; repeat split; auto].
  rewrite forallb_forall in *; auto.
Qed.

Lemma truthy_false s : Py.truthy s = false -> s = "".
Proof. destruct s; [reflexivity | discriminate]. Qed.

Lemma truthy_true s : Py.truthy s = true <-> s <> "".
Proof. destruct s; simpl; split; congruence. Qed.

Ltac frame_auto :=
  split;
  [ simpl; intros; try reflexivity
  | simpl; rewrite <- ?app_assoc; simpl; eexists; split;
    [ reflexivity
    | split; [ repeat (econstructor; try eassumption) | reflexivity ] ] ].

Lemma run_adb_command_framed description command_args st :
  fst (run_adb_command exec description command_args st) =
    Return (succeeded (fst (exec (full_command (DEVICE_SERIAL st) command_args) (world st)))) /\
  framed exec (fun _ => true) st (snd (run_adb_command exec description command_args st)).
Proof.
  destruct (run_adb_command_run description command_args st) as [lines ->]; simpl.
  split; [reflexivity | ].
  split; [reflexivity | ].
  eexists; split; [reflexivity | ]. split; [apply runs_one | reflexivity].
Qed.

Lemma check_adb_connection_framed st :
  fst (check_adb_connection exec st) = Return tt /\
  framed exec is_query st (snd (check_adb_connection exec st)).
Proof.
  unfold check_adb_connection, authorization_check, bind, try_except,
    get_DEVICE_SERIAL, write, create_subprocess_exec, ret,
    set_adb_status, set_device_info, set_adb_ready, set_DEVICE_SERIAL; simpl.
  destruct (exec _ (world st)) as [[rc out err | | e] w'] eqn:E; simpl;
    try (split; [reflexivity | frame_auto]).
  destruct (devices_of (Py.strip out)) as [ | device0 rest]; simpl;
    try (split; [reflexivity | frame_auto]).
  destruct (Py.truthy (DEVICE_SERIAL st)) eqn:T; simpl.
  - rewrite ?andb_false_r; simpl.
    destruct (negb _); simpl; try (split; [reflexivity | frame_auto]).
    destruct (exec _ w') as [[rc2 out2 err2 | | e2] w''] eqn:E2; simpl;
      try destruct (Py.str_in _ err2); simpl;
      (split; [reflexivity | frame_auto]).
  - apply truthy_false in T. rewrite ?andb_true_r.
    destruct rest as [ | device1 rest]; simpl.
    + destruct (exec _ w') as [[rc2 out2 err2 | | e2] w''] eqn:E2; simpl;
        try destruct (Py.str_in _ err2); simpl;
        (split; [reflexivity | frame_auto; congruence]).
    + split; [reflexivity | frame_auto].
Qed.

Lemma get_linux_interface_status_framed st :
  fst (get_linux_interface_status exec st) = Return tt /\
  framed exec is_query st (snd (get_linux_interface_status exec st)).
Proof.
  unfold get_linux_interface_status, bind, try_except, raise, write,
    create_subprocess_exec, ret, set_linux_iface_status; simpl.
  destruct (exec _ (world st)) as [[rc out err | | e] w'] eqn:E; simpl;
    try (split; [reflexivity | frame_auto]).
  destruct (Re.search link_re (Py.strip out)) as [[interface_name | ] | ]; simpl;
    try (split; [reflexivity | frame_auto]).
  destruct (exec _ w') as [[rc2 out2 err2 | | e2] w''] eqn:E2; simpl;
    try destruct (Re.search inet_re _); simpl;
    (split; [reflexivity | frame_auto]).
Qed.

Lemma bind_run {A B} (m : M World A) (f : A -> M World B) st a :
  fst (m st) = Return a -> bind World m f st = f a (snd (m st)).
Proof. unfold bind; destruct (m st) as [o st']; simpl; intros ->; reflexivity. Qed.

Lemma write_framed ok line st : framed exec ok st (snd (write World line st)).
Proof.
  split; [reflexivity | exists []; simpl; rewrite app_nil_r; repeat split; constructor].
Qed.

Lemma action_refresh_status_framed st :
  fst (action_refresh_status exec st) = Return tt /\
  framed exec is_query st (snd (action_refresh_status exec st)).
Proof.
  unfold action_refresh_status.
  rewrite (bind_run _ _ _ tt) by reflexivity.
  set (st1 := snd (write World _ st)).
  assert (F1 : framed exec is_query st st1) by apply write_framed.
  destruct (check_adb_connection_framed st1) as [R2 F2].
  rewrite (bind_run _ _ _ tt) by exact R2.
  destruct (get_linux_interface_status_framed (snd (check_adb_connection exec st1))) as [R3 F3].
  rewrite (bind_run _ _ _ tt) by exact R3.
  split; [reflexivity | ].
  eapply framed_trans; [ | apply write_framed ].
  eapply framed_trans; [ | exact F3 ].
  eapply framed_trans; [ exact F1 | exact F2 ].
Qed.

Lemma bind_run_adb_command {B} description command_args (f : bool -> M World B) st :
  let cmd := full_command (DEVICE_SERIAL st) command_args in
  let r := fst (exec cmd (world st)) in
  exists lines,
    bind World (run_adb_command exec description command_args) f st =
    f (succeeded r)
      (mkState (DEVICE_SERIAL st) (adb_status st) (device_info st)
               (linux_iface_status st) (adb_ready st) (rich_log st ++ lines)
               (snd (exec cmd (world st))) (exec_log st ++ [(cmd, r)])).
Proof.
  intros cmd r.
  destruct (run_adb_command_run description command_args st) as [lines E].
  exists lines. unfold bind. rewrite E. reflexivity.
Qed.

Lemma bind_write {B} line (f : unit -> M World B) st :
  bind World (write World line) f st =
  f tt (mkState (DEVICE_SERIAL st) (adb_status st) (device_info st)
                (linux_iface_status st) (adb_ready st) (rich_log st ++ [line])
                (world st) (exec_log st)).
Proof. reflexivity. Qed.

Lemma refresh_then_write_framed line st :
  fst (bind World (action_refresh_status exec) (fun _ => write World line) st) = Return tt /\
  framed exec is_query st
    (snd (bind World (action_refresh_status exec) (fun _ => write World line) st)).
Proof.
  destruct (action_refresh_status_framed st) as [R F].
  rewrite (bind_run _ _ _ tt) by exact R.
  split; [reflexivity | ].
  eapply framed_trans; [exact F | apply write_framed].
Qed.

(** ** The readiness gate *)

(** C1. A button press on a session that is not ready (no serial bound, or
    [adb_ready] false) only writes one line to the log: no process is
    spawned, the world is untouched and so is every attribute.  The gate
    stands before the dispatch on the button, so this holds for every
    button id, the enable and disable buttons among them. *)
Theorem not_ready_press_spawns_nothing button_id st :
  DEVICE_SERIAL st = "" \/ adb_ready st = false ->
  let st' := snd (on_button_pressed exec button_id st) in
  fst (on_button_pressed exec button_id st) = Return tt /\
  exec_log st' = exec_log st /\
  world st' = world st /\
  DEVICE_SERIAL st' = DEVICE_SERIAL st /\
  device_record st' = device_record st /\
  linux_iface_status st' = linux_iface_status st /\
  rich_log st' = rich_log st ++
    ["[red]ADB not connected, authorized, or device not selected. Cannot perform action.[/red]"].
Proof.
  intros H.
  unfold on_button_pressed, bind, get_DEVICE_SERIAL, get_adb_ready; simpl.
  assert (G : negb (Py.truthy (DEVICE_SERIAL st)) || negb (adb_ready st) = true).
  { destruct H as [-> | ->]; [reflexivity | apply orb_true_r]. }
  rewrite G; simpl. repeat split.
Qed.

(** ** The tethering pipelines *)

Lemma spawned_between_app st st' l :
  exec_log st' = exec_log st ++ l -> spawned_between st st' = map fst l.
Proof.
  unfold spawned_between; intros ->.
  rewrite skipn_app, skipn_all, Nat.sub_diag; reflexivity.
Qed.

Lemma query_only_excludes (a : argv) (q : list (argv * spawn_result)) :
  forallb (fun e => is_query (fst e)) q = true ->
  is_query a = false -> ~ In a (map fst q).
Proof.
  intros Q N I. apply in_map_iff in I as ([a' r] & <- & I).
  rewrite forallb_forall in Q. apply Q in I. simpl in *. congruence.
Qed.

Lemma full_command_bound serial args :
  serial <> "" -> full_command serial args = "adb" :: "-s" :: serial :: args.
Proof. destruct serial; [congruence | reflexivity]. Qed.

Lemma bind_get_DEVICE_SERIAL {B} (f : string -> M World B) st :
  bind World (get_DEVICE_SERIAL World) f st = f (DEVICE_SERIAL st) st.
Proof. reflexivity. Qed.

Lemma bind_get_adb_ready {B} (f : bool -> M World B) st :
  bind World (get_adb_ready World) f st = f (adb_ready st) st.
Proof. reflexivity. Qed.

Ltac ready_gate Hs Hr :=
  unfold on_button_pressed;
  rewrite bind_get_DEVICE_SERIAL, bind_get_adb_ready;
  rewrite Hr; rewrite (proj2 (truthy_true _) Hs); cbn [negb orb];
  rewrite ?String.eqb_refl;
  try change (String.eqb "disable-btn" "enable-btn") with false;
  cbv iota.

Ltac run_step :=
  match goal with
  | |- context [bind _ (run_adb_command _ ?d ?a) ?f ?s] =>
      let lines := fresh "lines" in
      let E := fresh "E" in
      destruct (bind_run_adb_command d a f s) as [lines E];
      cbn [DEVICE_SERIAL world exec_log rich_log adb_status device_info
           linux_iface_status adb_ready] in E;
      rewrite E; clear E; cbv beta
  end.

Lemma finish_with_queries (m : M World unit) st stp steps :
  framed exec is_query stp (snd (m stp)) ->
  exec_log stp = exec_log st ++ steps ->
  runs exec (world st) steps (world stp) ->
  exists queries,
    exec_log (snd (m stp)) = exec_log st ++ steps ++ queries /\
    forallb (fun e => is_query (fst e)) queries = true /\
    runs exec (world st) (steps ++ queries) (world (snd (m stp))).
Proof.
  intros [_ (q & L & R & Q)] Hl Hr. exists q.
  rewrite L, Hl, <- app_assoc. repeat split; auto.
  eapply runs_app; eauto.
Qed.

Ltac finish_pipeline :=
  apply finish_with_queries;
  [ first [ apply refresh_then_write_framed | apply action_refresh_status_framed ]
  | cbn [exec_log]; rewrite <- ?app_assoc; reflexivity
  | cbn [world]; repeat (econstructor; [eassumption | ]); constructor ].

Lemma enable_press_log st :
  DEVICE_SERIAL st <> "" -> adb_ready st = true ->
  let adb := full_command (DEVICE_SERIAL st) in
  let '(r1, w1) := exec (adb cmd_root) (world st) in
  let '(r2, w2) := exec (adb (cmd_dun "0")) w1 in
  let '(r3, w3) := exec (adb (cmd_usb "rndis")) w2 in
  let '(r4, w4) := exec (adb (cmd_offload "1")) w3 in
  let steps :=
    [(adb cmd_root, r1); (adb (cmd_dun "0"), r2)] ++
    (if succeeded r2 then
       (adb (cmd_usb "rndis"), r3) ::
       (if succeeded r3 then [(adb (cmd_offload "1"), r4)] else [])
     else []) in
  let st' := snd (on_button_pressed exec "enable-btn" st) in
  exists queries,
    exec_log st' = exec_log st ++ steps ++ queries /\
    forallb (fun e => is_query (fst e)) queries = true /\
    runs exec (world st) (steps ++ queries) (world st').
Proof.
  intros Hs Hr adb.
  destruct (exec (adb cmd_root) (world st)) as [r1 w1] eqn:E1.
  destruct (exec (adb (cmd_dun "0")) w1) as [r2 w2] eqn:E2.
  destruct (exec (adb (cmd_usb "rndis")) w2) as [r3 w3] eqn:E3.
  destruct (exec (adb (cmd_offload "1")) w3) as [r4 w4] eqn:E4.
  intros steps st'.
  subst st' steps. ready_gate Hs Hr.
  rewrite bind_write.
  run_step. fold adb. rewrite E1. cbn [fst snd].
  run_step. fold adb. rewrite E2. cbn [fst snd].
  destruct (succeeded r2).
  - run_step. fold adb. rewrite E3. cbn [fst snd].
    destruct (succeeded r3).
    + rewrite (bind_run _ _ _ tt).
      2:{ run_step. reflexivity. }
      run_step. fold adb. rewrite E4. cbn [fst snd ret].
      rewrite bind_write. finish_pipeline.
    + rewrite (bind_run _ _ _ tt) by reflexivity. cbn [snd ret].
      rewrite bind_write. finish_pipeline.
  - rewrite (bind_run _ _ _ false) by reflexivity. cbn [snd ret].
    rewrite (bind_run _ _ _ tt) by reflexivity. cbn [snd ret].
    rewrite bind_write. finish_pipeline.
Qed.


Lemma disable_press_log st :
  DEVICE_SERIAL st <> "" -> adb_ready st = true ->
  let adb := full_command (DEVICE_SERIAL st) in
  let '(r1, w1) := exec (adb (cmd_offload "0")) (world st) in
  let '(r2, w2) := exec (adb (cmd_dun "1")) w1 in
  let '(r3, w3) := exec (adb (cmd_usb "mtp,adb")) w2 in
  let steps :=
    (adb (cmd_offload "0"), r1) ::
    (if succeeded r1 then
       (adb (cmd_dun "1"), r2) ::
       (if succeeded r2 then [(adb (cmd_usb "mtp,adb"), r3)] else [])
     else []) in
  let st' := snd (on_button_pressed exec "disable-btn" st) in
  exists queries,
    exec_log st' = exec_log st ++ steps ++ queries /\
    forallb (fun e => is_query (fst e)) queries = true /\
    runs exec (world st) (steps ++ queries) (world st').
Proof.
  intros Hs Hr adb.
  destruct (exec (adb (cmd_offload "0")) (world st)) as [r1 w1] eqn:E1.
  destruct (exec (adb (cmd_dun "1")) w1) as [r2 w2] eqn:E2.
  destruct (exec (adb (cmd_usb "mtp,adb")) w2) as [r3 w3] eqn:E3.
  intros steps st'.
  subst st' steps. ready_gate Hs Hr.
  rewrite bind_write.
  run_step. fold adb. rewrite E1. cbn [fst snd].
  destruct (succeeded r1).
  - run_step. fold adb. rewrite E2. cbn [fst snd].
    destruct (succeeded r2).
    + rewrite (bind_run _ _ _ tt).
      2:{ run_step. reflexivity. }
      run_step. fold adb. rewrite E3. cbn [fst snd ret].
      rewrite bind_write. finish_pipeline.
    + rewrite (bind_run _ _ _ tt) by reflexivity. cbn [snd ret].
      rewrite bind_write. finish_pipeline.
  - rewrite (bind_run _ _ _ false) by reflexivity. cbn [snd ret].
    rewrite (bind_run _ _ _ tt) by reflexivity. cbn [snd ret].
    rewrite bind_write. finish_pipeline.
Qed.


(** ** The bound serial *)

Lemma bind_framed {A B} ok (m : M World A) (f : A -> M World B) st :
  framed exec ok st (snd (m st)) ->
  (forall a st1, framed exec ok st1 (snd (f a st1))) ->
  framed exec ok st (snd (bind World m f st)).
Proof.
  intros Hm Hf. unfold bind.
  destruct (m st) as [[a | e] st1]; simpl in *.
  - eapply framed_trans; [exact Hm | apply Hf].
  - exact Hm.
Qed.

Lemma is_query_any a : is_query a = true -> (fun _ : argv => true) a = true.
Proof. reflexivity. Qed.

Ltac framed_step :=
  lazymatch goal with
  | |- framed _ _ _ (snd (run_adb_command _ _ _ _)) => apply run_adb_command_framed
  | |- framed _ _ _ (snd (action_refresh_status _ _)) =>
      apply (framed_weaken _ _ _ _ is_query_any); apply action_refresh_status_framed
  | |- framed _ _ _ (snd (write _ _ _)) => apply write_framed
  | |- framed _ _ _ (snd (ret _ _ _)) => apply framed_refl
  | |- framed _ _ _ (snd (get_DEVICE_SERIAL _ _)) => apply framed_refl
  | |- framed _ _ _ (snd (get_adb_ready _ _)) => apply framed_refl
  | |- framed _ _ _ (snd ((if ?b then _ else _) _)) => destruct b
  | |- framed _ _ _ (snd (bind _ _ _ _)) => apply bind_framed; [ | intros ]
  end.

Lemma on_button_pressed_framed button_id st :
  framed exec (fun _ => true) st (snd (on_button_pressed exec button_id st)).
Proof.
  unfold on_button_pressed. repeat framed_step.
Qed.

Lemma handle_framed ev st :
  framed exec (fun _ => true) st (snd (handle exec ev st)).
Proof.
  destruct ev as [ | button_id]; simpl.
  - apply (framed_weaken _ _ _ _ is_query_any); apply action_refresh_status_framed.
  - apply on_button_pressed_framed.
Qed.

Lemma bind_returns {A B} (m : M World A) (f : A -> M World B) :
  (forall st, exists a, fst (m st) = Return a) ->
  (forall a st, exists b, fst (f a st) = Return b) ->
  forall st, exists b, fst (bind World m f st) = Return b.
Proof.
  intros Hm Hf st. destruct (Hm st) as [a Ha].
  rewrite (bind_run _ _ _ a Ha). apply Hf.
Qed.

Ltac returns_step :=
  lazymatch goal with
  | |- exists _, fst (run_adb_command _ _ _ _) = _ =>
      eexists; apply run_adb_command_framed
  | |- exists _, fst (action_refresh_status _ _) = _ =>
      eexists; apply action_refresh_status_framed
  | |- exists _, fst ((if ?b then _ else _) _) = _ => destruct b
  | |- exists _, fst (bind _ _ _ _) = _ => apply bind_returns; intros
  | |- exists _, fst _ = _ => eexists; reflexivity
  end.

(** No handler lets an exception escape. *)
Lemma handle_returns ev st : fst (handle exec ev st) = Return tt.
Proof.
  assert (H : exists u, fst (handle exec ev st) = Return u).
  { destruct ev as [ | button_id]; simpl.
    - eexists; apply action_refresh_status_framed.
    - unfold on_button_pressed. repeat returns_step. }
  destruct H as [[] H]. exact H.
Qed.

(** C9. Once a serial is bound (non-empty), no sequence of refreshes and
    button presses rebinds it: the only assignment to [DEVICE_SERIAL] sits
    under the test that it is still empty.  And when a discovery pass does
    change the serial, it was unset before and the new value is the one device
    that pass listed. *)
Theorem serial_bound_once st :
  (forall evs,
     DEVICE_SERIAL st <> "" ->
     DEVICE_SERIAL (run_events exec evs st) = DEVICE_SERIAL st) /\
  (let st' := snd (check_adb_connection exec st) in
   DEVICE_SERIAL st' = DEVICE_SERIAL st \/
   (DEVICE_SERIAL st = "" /\
    exists rc out err w1,
      exec ["adb"; "devices"] (world st) = (Exited rc out err, w1) /\
      devices_of (Py.strip out) = [DEVICE_SERIAL st'])).
Proof.
  split.
  - intros evs. revert st; induction evs as [ | ev evs IH]; intros st H; simpl.
    + reflexivity.
    + destruct (handle_framed ev st) as [S _].
      rewrite IH; rewrite (S H); auto.
  - unfold_check. change ADB_PATH with "adb". simpl.
    destruct (exec ["adb"; "devices"] (world st)) as [[rc out err | | e] w1] eqn:E;
      simpl; auto.
    destruct (devices_of (Py.strip out)) as [ | d0 rest] eqn:D; simpl; auto.
    destruct (Py.truthy (DEVICE_SERIAL st)) eqn:T; simpl.
    + rewrite ?andb_false_r; simpl.
      destruct (_ || _); simpl; auto.
      destruct (exec _ w1) as [[rc2 out2 err2 | | e2] w2]; simpl;
        try destruct (Py.str_in _ err2); simpl; auto.
    + apply truthy_false in T. rewrite ?andb_true_r.
      destruct rest as [ | d1 rest]; simpl; auto.
      right. split; [exact T | ]. exists rc, out, err, w1. split; [reflexivity | ].
      rewrite D.
      destruct (exec _ w1) as [[rc2 out2 err2 | | e2] w2]; simpl;
        try destruct (Py.str_in _ err2); reflexivity.
Qed.

(** ** Authorization *)

(** C10. When discovery has settled on a serial, the session is marked
    ready and the status Connected as soon as the stderr of the probe
    [adb -s SERIAL shell echo test] lacks the text "device unauthorized",
    whatever the probe returned: the return code [rc] is not looked at. *)
Theorem authorization_ignores_exit_code st rc0 out0 err0 w1 serial rc out err w2 :
  exec ["adb"; "devices"] (world st) = (Exited rc0 out0 err0, w1) ->
  resolved_serial (DEVICE_SERIAL st) (devices_of (Py.strip out0)) = Some serial ->
  exec ["adb"; "-s"; serial; "shell"; "echo"; "test"] w1 = (Exited rc out err, w2) ->
  Py.str_in "device unauthorized" err = false ->
  let st' := snd (check_adb_connection exec st) in
  adb_ready st' = true /\
  adb_status st' = "[green]Connected[/green]" /\
  device_info st' = serial /\
  DEVICE_SERIAL st' = serial.
Proof.
  intros E0 Hres E1 Herr.
  unfold check_adb_connection, authorization_check, bind, try_except,
    get_DEVICE_SERIAL, write, create_subprocess_exec, ret,
    set_adb_status, set_device_info, set_adb_ready, set_DEVICE_SERIAL; simpl.
  change [ADB_PATH; "devices"] with ["adb"; "devices"]. rewrite E0; simpl.
  unfold resolved_serial in Hres.
  destruct (devices_of (Py.strip out0)) as [ | device0 rest] eqn:D; [discriminate | ].
  destruct (Py.truthy (DEVICE_SERIAL st)) eqn:T.
  - destruct (Py.list_in (DEVICE_SERIAL st) (device0 :: rest)); [ | discriminate].
    injection Hres as <-. rewrite ?andb_false_r; cbn [negb].
    cbn [DEVICE_SERIAL world]. change ADB_PATH with "adb". rewrite E1.
    cbn [stderr]. rewrite Herr. simpl. auto.
  - destruct rest; [ | discriminate]. injection Hres as <-.
    cbn [List.length Nat.ltb Nat.leb andb negb DEVICE_SERIAL world].
    change ADB_PATH with "adb". rewrite E1.
    cbn [stderr]. rewrite Herr. simpl. auto.
Qed.

(** ** Round trip of the USB function

    The device is outside the program; what the round trip needs of it is
    stated as two hypotheses on the world: a [setFunctions] command that
    returns 0 leaves the USB function it names, and no other command changes
    the USB function. *)

Lemma argv_eqb_eq a b : argv_eqb a b = true -> a = b.
Proof. unfold argv_eqb; destruct (list_eq_dec string_dec a b); congruence. Qed.

Lemma is_query_length a :
  is_query a = true ->
  List.length a = 2 \/ List.length a = 3 \/ List.length a = 6.
Proof.
  unfold is_query. rewrite !orb_true_iff. intros [[[H | H] | H] | H].
  - apply argv_eqb_eq in H; subst; auto.
  - destruct a as [ | ? [ | ? [ | ? [ | ? [ | ? [ | ? [ | ? ?]]]]]]]; try discriminate; auto.
  - apply argv_eqb_eq in H; subst; auto.
  - destruct a as [ | ? [ | ? [ | ? [ | ? [ | ? [ | ? [ | ? ?]]]]]]]; try discriminate; auto.
Qed.

Lemma is_set_functions_length a : is_set_functions a = true -> List.length a = 8.
Proof.
  destruct a as [ | ? [ | ? [ | ? [ | ? [ | ? [ | ? [ | ? [ | ? [ | ? ?]]]]]]]]];
    try discriminate; auto.
Qed.

Lemma query_not_set_functions a : is_query a = true -> is_set_functions a = false.
Proof.
  intros Q. destruct (is_set_functions a) eqn:S; [ | reflexivity].
  apply is_query_length in Q. apply is_set_functions_length in S. lia.
Qed.

Lemma runs_app_inv (w w' : World) l1 l2 :
  runs exec w (l1 ++ l2) w' -> exists wm, runs exec w l1 wm /\ runs exec wm l2 w'.
Proof.
  revert w; induction l1 as [ | [a r] l1 IH]; intros w H; simpl in *.
  - exists w; split; [constructor | exact H].
  - inversion H as [ | ? ? ? w1 ? ? E R]; subst.
    destruct (IH _ R) as (wm & R1 & R2).
    exists wm; split; [econstructor; eauto | exact R2].
Qed.

Lemma succeeded_inv r : succeeded r = true -> exists out err, r = Exited 0 out err.
Proof.
  destruct r as [rc out err | | e]; try discriminate; simpl.
  intros H. apply Z.eqb_eq in H. subst. eauto.
Qed.

Lemma gate_closed button_id st :
  adb_ready st = false ->
  exec_log (snd (on_button_pressed exec button_id st)) = exec_log st.
Proof.
  intros H. unfold on_button_pressed.
  rewrite bind_get_DEVICE_SERIAL, bind_get_adb_ready, H, orb_true_r. reflexivity.
Qed.

Lemma step_succeeded_log st st' l a :
  exec_log st' = exec_log st ++ l ->
  step_succeeded st st' a -> exists r, In (a, r) l /\ succeeded r = true.
Proof.
  unfold step_succeeded. intros ->.
  rewrite skipn_app, skipn_all, Nat.sub_diag. exact (fun H => H).
Qed.

Lemma query_only_excludes_entry (a : argv) r (q : list (argv * spawn_result)) :
  forallb (fun e => is_query (fst e)) q = true ->
  is_query a = false -> ~ In (a, r) q.
Proof.
  intros Q N I. rewrite forallb_forall in Q. apply Q in I. simpl in I. congruence.
Qed.

Section Device.

Variable usb_functions : World -> string.

Hypothesis set_functions_takes :
  forall serial functions w out err w',
    exec ("adb" :: "-s" :: serial :: cmd_usb functions) w = (Exited 0 out err, w') ->
    usb_functions w' = functions.

Hypothesis others_keep_functions :
  forall a w, is_set_functions a = false ->
              usb_functions (snd (exec a w)) = usb_functions w.

Lemma runs_keep_functions (w w' : World) l :
  runs exec w l w' ->
  forallb (fun e => negb (is_set_functions (fst e))) l = true ->
  usb_functions w' = usb_functions w.
Proof.
  induction 1 as [w | w a r w1 l w2 E R IH]; simpl; intros H.
  - reflexivity.
  - apply andb_true_iff in H as [Ha Hl]. rewrite (IH Hl).
    apply negb_true_iff in Ha.
    rewrite <- (others_keep_functions a w Ha), E. reflexivity.
Qed.

Lemma queries_keep_functions (w w' : World) q :
  runs exec w q w' ->
  forallb (fun e => is_query (fst e)) q = true ->
  usb_functions w' = usb_functions w.
Proof.
  intros R Q. apply (runs_keep_functions _ _ _ R).
  rewrite forallb_forall in *. intros e I.
  apply negb_true_iff, query_not_set_functions, Q, I.
Qed.

Lemma runs_det (w w1 w2 : World) l :
  runs exec w l w1 -> runs exec w l w2 -> w1 = w2.
Proof.
  intros R1; revert w2; induction R1 as [w | w a r w' l w'' E R IH]; intros w2 R2.
  - inversion R2; reflexivity.
  - inversion R2 as [ | ? ? ? w3 ? ? E' R']; subst.
    rewrite E in E'. injection E' as <-. apply IH, R'.
Qed.

Ltac in_cases H :=
  repeat match type of H with
         | In _ (_ ++ _) => apply in_app_or in H; destruct H as [H | H]
         | In _ (_ :: _) => destruct H as [H | H]; [try discriminate H | ]
         | In _ [] => destruct H
         | In _ (if ?b then _ else _) => destruct b eqn:?
         end.


End Device.

(** ** Refreshing twice *)

Section Pure.

(** No external state change between calls: what a command answers does not
    depend on the world it is run in. *)
Hypothesis pure : forall a w w', fst (exec a w) = fst (exec a w').

Ltac relate_exec :=
  repeat match goal with
         | E1 : exec ?a ?w1 = (?r1, _), E2 : exec ?a ?w2 = (?r2, _) |- _ =>
             lazymatch r1 with
             | r2 => fail
             | _ => let H := fresh in
                    pose proof (pure a w1 w2) as H;
                    rewrite E1, E2 in H; simpl in H; subst r2
             end
         end.

#[local] Arguments Py.list_in : simpl never.
#[local] Arguments Py.str_in : simpl never.
#[local] Arguments Py.join : simpl never.
#[local] Arguments Py.strip : simpl never.
#[local] Arguments String.append : simpl never.

Lemma check_adb_connection_view st :
  let st' := snd (check_adb_connection exec st) in
  (DEVICE_SERIAL st', device_record st') = discovery exec (world st) (DEVICE_SERIAL st).
Proof.
  unfold discovery, authorization_record. unfold_check.
  change ADB_PATH with "adb". simpl.
  destruct (exec ["adb"; "devices"] (world st)) as [[rc out err | | e] w1] eqn:E;
    simpl; try reflexivity.
  destruct (devices_of (Py.strip out)) as [ | d0 rest] eqn:D; simpl; try reflexivity.
  destruct (Py.truthy (DEVICE_SERIAL st)) eqn:T; simpl.
  - rewrite ?andb_false_r; simpl.
    destruct (Py.list_in (DEVICE_SERIAL st) (d0 :: rest)); simpl; try reflexivity.
    rewrite (pure _ (world st) w1).
    destruct (exec _ w1) as [[rc2 out2 err2 | | e2] w2]; simpl;
      try destruct (Py.str_in _ err2); reflexivity.
  - rewrite ?andb_true_r. destruct rest as [ | d1 rest]; simpl; try reflexivity.
    rewrite (pure _ (world st) w1).
    destruct (exec _ w1) as [[rc2 out2 err2 | | e2] w2]; simpl;
      try destruct (Py.str_in _ err2); reflexivity.
Qed.

Lemma discovery_pure w w' serial : discovery exec w serial = discovery exec w' serial.
Proof.
  unfold discovery. rewrite (pure _ w w').
  destruct (fst (exec ["adb"; "devices"] w')) as [rc out err | | e]; try reflexivity.
  destruct (devices_of (Py.strip out)) as [ | d0 rest]; [reflexivity | ].
  rewrite (pure _ w w'), (pure ["adb"; "-s"; d0; "shell"; "echo"; "test"] w w').
  reflexivity.
Qed.

Lemma discovery_again w serial :
  discovery exec w (fst (discovery exec w serial)) = discovery exec w serial.
Proof.
  unfold discovery.
  destruct (fst (exec ["adb"; "devices"] w)) as [rc out err | | e]; try reflexivity.
  destruct (devices_of (Py.strip out)) as [ | d0 rest]; [reflexivity | ].
  destruct (Py.truthy serial) eqn:T.
  - destruct (Py.list_in serial (d0 :: rest)) eqn:L; cbn [fst]; rewrite T, L; reflexivity.
  - destruct rest as [ | d1 rest]; cbn [fst].
    + destruct (Py.truthy d0) eqn:Td; [ | reflexivity].
      unfold Py.list_in. cbn [existsb]. rewrite String.eqb_refl. reflexivity.
    + rewrite T. reflexivity.
Qed.

Lemma check_adb_connection_twice st sta :
  DEVICE_SERIAL sta = DEVICE_SERIAL (snd (check_adb_connection exec st)) ->
  device_record (snd (check_adb_connection exec sta))
    = device_record (snd (check_adb_connection exec st)) /\
  DEVICE_SERIAL (snd (check_adb_connection exec sta)) = DEVICE_SERIAL sta.
Proof.
  intros H.
  pose proof (check_adb_connection_view st) as V.
  pose proof (check_adb_connection_view sta) as Va.
  cbv zeta in V, Va.
  rewrite H, (discovery_pure (world sta) (world st)) in Va.
  replace (DEVICE_SERIAL (snd (check_adb_connection exec st)))
    with (fst (discovery exec (world st) (DEVICE_SERIAL st))) in Va
    by (rewrite <- V; reflexivity).
  rewrite discovery_again, <- V in Va.
  rewrite H. split.
  - exact (f_equal snd Va).
  - exact (f_equal fst Va).
Qed.

Ltac unfold_probe :=
  unfold get_linux_interface_status, bind, try_except, raise, write,
    create_subprocess_exec, ret, set_linux_iface_status, device_record.

Lemma get_linux_interface_status_keeps st :
  device_record (snd (get_linux_interface_status exec st)) = device_record st /\
  DEVICE_SERIAL (snd (get_linux_interface_status exec st)) = DEVICE_SERIAL st.
Proof.
  unfold_probe.
  destruct (exec _ (world st)) as [[rc out err | | e] w1]; simpl; auto.
  destruct (Re.search link_re (Py.strip out)) as [[name | ] | ]; simpl; auto.
  destruct (exec _ w1) as [[rc2 out2 err2 | | e2] w2]; simpl; auto.
  destruct (Re.search inet_re (Py.strip out2)); simpl; auto.
Qed.

Lemma get_linux_interface_status_twice st sta :
  linux_iface_status (snd (get_linux_interface_status exec sta))
    = linux_iface_status (snd (get_linux_interface_status exec st)).
Proof.
  unfold_probe.
  destruct (exec ["ip"; "link"; "show"] (world st)) as [r w1] eqn:E.
  destruct (exec ["ip"; "link"; "show"] (world sta)) as [ra wa1] eqn:Ea.
  relate_exec.
  destruct r as [rc out err | | e]; simpl; auto.
  destruct (Re.search link_re (Py.strip out)) as [[name | ] | ]; simpl; auto.
  destruct (exec _ w1) as [r2 w2] eqn:E2.
  destruct (exec _ wa1) as [r2a w2a] eqn:E2a.
  relate_exec.
  destruct r2 as [rc2 out2 err2 | | e2]; simpl; auto.
  destruct (Re.search inet_re (Py.strip out2)); simpl; auto.
Qed.

Lemma action_refresh_status_unfold st :
  snd (action_refresh_status exec st) =
  snd (write World "[green]Status refreshed.[/green]"
         (snd (get_linux_interface_status exec
                 (snd (check_adb_connection exec
                         (snd (write World "[cyan]Refreshing status...[/cyan]" st))))))).
Proof.
  unfold action_refresh_status.
  rewrite (bind_run _ _ _ tt) by reflexivity.
  rewrite (bind_run _ _ _ tt) by apply check_adb_connection_framed.
  rewrite (bind_run _ _ _ tt) by apply get_linux_interface_status_framed.
  reflexivity.
Qed.

(** C8. Refreshing twice.  When what each command answers does not depend
    on the world it runs in, a second refresh right after a first one computes
    the same connection status, device line and readiness, and the same
    interface status, and leaves the serial the first refresh settled on; this
    holds also when the first refresh is the one that bound the serial. *)
Theorem refresh_twice_same_result st :
  let st1 := snd (action_refresh_status exec st) in
  let st2 := snd (action_refresh_status exec st1) in
  device_record st2 = device_record st1 /\
  linux_iface_status st2 = linux_iface_status st1 /\
  DEVICE_SERIAL st2 = DEVICE_SERIAL st1.
Proof.
  intros st1 st2. subst st2 st1.
  rewrite !action_refresh_status_unfold.
  set (sa := snd (write World "[cyan]Refreshing status...[/cyan]" st)).
  set (s1 := snd (check_adb_connection exec sa)).
  set (s2 := snd (get_linux_interface_status exec s1)).
  set (s3 := snd (write World "[green]Status refreshed.[/green]" s2)).
  set (sb := snd (write World "[cyan]Refreshing status...[/cyan]" s3)).
  set (t1 := snd (check_adb_connection exec sb)).
  set (t2 := snd (get_linux_interface_status exec t1)).
  destruct (get_linux_interface_status_keeps s1) as [K1 K2].
  destruct (get_linux_interface_status_keeps t1) as [K3 K4].
  fold s2 in K1, K2. fold t2 in K3, K4.
  assert (Hsb : DEVICE_SERIAL sb = DEVICE_SERIAL s1) by (rewrite <- K2; reflexivity).
  destruct (check_adb_connection_twice sa sb Hsb) as [C1 C2].
  fold s1 t1 in C1, C2.
  change (device_record t2 = device_record s2 /\
          linux_iface_status t2 = linux_iface_status s2 /\
          DEVICE_SERIAL t2 = DEVICE_SERIAL s2).
  repeat split.
  - congruence.
  - apply get_linux_interface_status_twice.
  - congruence.
Qed.

End Pure.

(** ** Discovery *)

Lemma append_empty_r (s : string) : (s ++ "")%string = s.
Proof. induction s as [ | c s IH]; simpl; [ | rewrite IH]; reflexivity. Qed.

Lemma prefix_app n a b : String.prefix n a = true -> String.prefix n (a ++ b) = true.
Proof.
  revert a; induction n as [ | c n IH]; intros a H;
    [destruct (a ++ b)%string; reflexivity | ].
  destruct a as [ | d a]; [discriminate | ]. simpl in *.
  destruct (ascii_dec c d); [apply IH, H | discriminate].
Qed.

Lemma str_in_cons n c a :
  Py.str_in n (String c a) = if String.prefix n (String c a) then true else Py.str_in n a.
Proof. reflexivity. Qed.

Lemma str_in_app_l n a b : Py.str_in n a = true -> Py.str_in n (a ++ b) = true.
Proof.
  induction a as [ | c a IH]; intros H.
  - destruct n; [ | discriminate]. destruct b; reflexivity.
  - change (String c a ++ b)%string with (String c (a ++ b)).
    rewrite str_in_cons in *.
    destruct (String.prefix n (String c a)) eqn:P.
    + change (String c (a ++ b)) with (String c a ++ b)%string.
      rewrite (prefix_app _ _ _ P). reflexivity.
    + rewrite (IH H). destruct (String.prefix n (String c (a ++ b))); reflexivity.
Qed.

Lemma str_in_app_r n a b : Py.str_in n b = true -> Py.str_in n (a ++ b) = true.
Proof.
  induction a as [ | c a IH]; intros H; [exact H | ].
  change (String c a ++ b)%string with (String c (a ++ b)).
  rewrite str_in_cons, (IH H).
  destruct (String.prefix n (String c (a ++ b))); reflexivity.
Qed.

Lemma split_cons sep s : exists f fs, Py.split sep s = f :: fs.
Proof.
  destruct s as [ | c s]; simpl; [eauto | ].
  destruct (Ascii.eqb c sep); [eauto | ].
  destruct (Py.split sep s); eauto.
Qed.

(** The first field of a split is a prefix of the text, and the later
    fields lie after the separator that ends it. *)
Lemma split_shape sep s f fs :
  Py.split sep s = f :: fs ->
  match fs with
  | [] => s = f
  | g :: _ => exists tl, s = (f ++ String sep (g ++ tl))%string
  end.
Proof.
  revert f fs; induction s as [ | c s IH]; intros f fs; simpl.
  - intros [= <- <-]. reflexivity.
  - destruct (Ascii.eqb c sep) eqn:C.
    + apply Ascii.eqb_eq in C; subst c. intros [= <- <-].
      destruct (split_cons sep s) as (g & gs & G). rewrite G.
      specialize (IH _ _ G). destruct gs as [ | h gs].
      * exists ""%string. subst s. simpl. rewrite append_empty_r. reflexivity.
      * destruct IH as (tl & ->). exists (String sep (h ++ tl))%string. reflexivity.
    + destruct (Py.split sep s) as [ | f' fs'] eqn:S; intros [= <- <-].
      * destruct (split_cons sep s) as (g & gs & G). congruence.
      * specialize (IH _ _ eq_refl). destruct fs' as [ | g gs].
        -- subst s. reflexivity.
        -- destruct IH as (tl & ->). exists tl. reflexivity.
Qed.

Lemma device_state_line_is_device_line line :
  device_state_line line = true -> is_device_line line = true.
Proof.
  unfold device_state_line, is_device_line, state_field.
  intros H. apply andb_true_iff in H as [Hh Hs]. rewrite Hh, andb_true_r.
  destruct (Py.split Py.TAB line) as [ | f [ | g fs]] eqn:S; try discriminate.
  apply split_shape in S as (tl & ->).
  apply str_in_app_r.
  change (String Py.TAB (g ++ tl)) with (String Py.TAB "" ++ (g ++ tl))%string.
  apply str_in_app_r, str_in_app_l, Hs.
Qed.

Lemma filter_length_le {A} (f g : A -> bool) l :
  (forall x, f x = true -> g x = true) ->
  List.length (filter f l) <= List.length (filter g l).
Proof.
  intros H; induction l as [ | x l IH]; simpl; [lia | ].
  destruct (f x) eqn:F.
  - rewrite (H _ F). simpl. lia.
  - destruct (g x); simpl; lia.
Qed.

Lemma filter_none {A} (f : A -> bool) l :
  (forall x, In x l -> f x = false) -> filter f l = [].
Proof.
  induction l as [ | x l IH]; simpl; intros H; [reflexivity | ].
  rewrite (H x (or_introl eq_refl)). apply IH. auto.
Qed.

(** A needle without the separator is found in [a SEP b] only inside [a] or
    inside [b]. *)

Lemma prefix_before_sep c n a b :
  Py.lacks c n = true ->
  String.prefix n (a ++ String c b) = String.prefix n a.
Proof.
  revert a; induction n as [ | d n IH]; intros a L; [destruct a; reflexivity | ].
  simpl in L. apply andb_true_iff in L as [D L].
  destruct a as [ | e a]; simpl.
  - destruct (ascii_dec d c) as [-> | _]; [ | reflexivity].
    rewrite Ascii.eqb_refl in D. discriminate.
  - destruct (ascii_dec d e); [apply IH, L | reflexivity].
Qed.

Lemma str_in_around_sep c n a b :
  Py.lacks c n = true -> n <> ""%string ->
  Py.str_in n (a ++ String c b) = Py.str_in n a || Py.str_in n b.
Proof.
  intros L N. induction a as [ | e a IH].
  - destruct n as [ | d n]; [congruence | ]. simpl.
    simpl in L. apply andb_true_iff in L as [D _].
    destruct (ascii_dec d c) as [-> | _]; [ | reflexivity].
    rewrite Ascii.eqb_refl in D. discriminate.
  - change (String e a ++ String c b)%string with (String e (a ++ String c b)).
    cbn [Py.str_in].
    change (String e (a ++ String c b)) with (String e a ++ String c b)%string.
    rewrite prefix_before_sep by exact L. rewrite IH.
    destruct (String.prefix n (String e a)); reflexivity.
Qed.

Section Listing.

#[local] Arguments Py.list_in : simpl never.
#[local] Arguments Py.str_in : simpl never.
#[local] Arguments Py.join : simpl never.
#[local] Arguments Py.strip : simpl never.
#[local] Arguments String.append : simpl never.

Ltac check_on E :=
  unfold_check; change ADB_PATH with "adb"; simpl; rewrite E; simpl.

(** C5, as the program has it.  When every line of the listing that
    contains the text device also contains the header text (so when no line
    contains device at all), discovery reports Disconnected with no device
    and ready false, binds no serial and spawns nothing further.  A line
    [serial TAB state] is kept out of the attached devices when neither its
    serial nor its state contains the text device: the test reads the whole
    line, not the state field. *)
Theorem no_device_text_disconnected st rc out err w1 :
  exec ["adb"; "devices"] (world st) = (Exited rc out err, w1) ->
  (forall line, In line (Py.splitlines (Py.strip out)) ->
                Py.str_in "device" line = true ->
                Py.str_in "List of devices attached" line = true) ->
  let st' := snd (check_adb_connection exec st) in
  (adb_status st' = "[red]Disconnected[/red]" /\
   device_info st' = "N/A" /\
   adb_ready st' = false /\
   DEVICE_SERIAL st' = DEVICE_SERIAL st /\
   spawned_between st st' = [["adb"; "devices"]]) /\
  (forall serial state,
     Py.str_in "device" serial = false -> Py.str_in "device" state = false ->
     is_device_line (serial ++ String Py.TAB state) = false).
Proof.
  intros E H st'. split.
  - assert (D : devices_of (Py.strip out) = []).
    { unfold devices_of. rewrite filter_none; [reflexivity | ].
      intros line I. unfold is_device_line.
      destruct (Py.str_in "device" line) eqn:S; [ | reflexivity].
      rewrite (H line I S). reflexivity. }
    subst st'. unfold spawned_between. check_on E. rewrite D. simpl.
    rewrite skipn_app, skipn_all, Nat.sub_diag. simpl. auto.
  - intros serial state Hs Ht. unfold is_device_line.
    rewrite (str_in_around_sep Py.TAB "device") by (reflexivity || discriminate).
    rewrite Hs, Ht. reflexivity.
Qed.


End Listing.

(** ** The host interface probe *)

Section Probe.

#[local] Arguments Py.strip : simpl never.
#[local] Arguments String.append : simpl never.
#[local] Arguments Re.search : simpl never.


End Probe.

(** ** Further properties of the handlers *)

Section Further.

#[local] Arguments Py.list_in : simpl never.
#[local] Arguments Py.str_in : simpl never.
#[local] Arguments Py.join : simpl never.
#[local] Arguments Py.strip : simpl never.
#[local] Arguments String.append : simpl never.
#[local] Arguments Re.search : simpl never.

Ltac spawned_simpl :=
  unfold spawned_between; cbn [exec_log]; rewrite <- ?app_assoc;
  rewrite skipn_app, skipn_all, Nat.sub_diag; simpl.

Lemma spawned_between_trans st st1 st2 l1 l2 :
  exec_log st1 = exec_log st ++ l1 -> exec_log st2 = exec_log st1 ++ l2 ->
  spawned_between st st2 = spawned_between st st1 ++ spawned_between st1 st2.
Proof.
  intros H1 H2.
  rewrite (spawned_between_app st st1 l1 H1), (spawned_between_app st1 st2 l2 H2).
  rewrite <- map_app. apply spawned_between_app. rewrite H2, H1, app_assoc. reflexivity.
Qed.


Lemma check_adb_connection_spawns st :
  let st' := snd (check_adb_connection exec st) in
  exists l, exec_log st' = exec_log st ++ l /\
    (map fst l = [["adb"; "devices"]] \/
     map fst l = [["adb"; "devices"];
                  ["adb"; "-s"; DEVICE_SERIAL st'; "shell"; "echo"; "test"]]).
Proof.
  unfold_check. change ADB_PATH with "adb". simpl.
  destruct (exec ["adb"; "devices"] (world st)) as [[rc out err | | e] w1]; simpl;
    try (eexists; split; [reflexivity | left; reflexivity]).
  destruct (devices_of (Py.strip out)) as [ | d0 rest]; simpl;
    try (eexists; split; [reflexivity | left; reflexivity]).
  destruct (Py.truthy (DEVICE_SERIAL st)); simpl.
  - rewrite ?andb_false_r; simpl.
    destruct (Py.list_in (DEVICE_SERIAL st) (d0 :: rest)); simpl;
      try (eexists; split; [reflexivity | left; reflexivity]).
    destruct (exec _ w1) as [[rc2 out2 err2 | | e2] w2]; simpl;
      try destruct (Py.str_in _ err2); simpl; rewrite <- app_assoc;
      (eexists; split; [reflexivity | right; reflexivity]).
  - rewrite ?andb_true_r. destruct rest as [ | d1 rest]; simpl;
      try (eexists; split; [reflexivity | left; reflexivity]).
    destruct (exec _ w1) as [[rc2 out2 err2 | | e2] w2]; simpl;
      try destruct (Py.str_in _ err2); simpl; rewrite <- app_assoc;
      (eexists; split; [reflexivity | right; reflexivity]).
Qed.

Lemma get_linux_interface_status_spawns st :
  let st' := snd (get_linux_interface_status exec st) in
  exists l, exec_log st' = exec_log st ++ l /\
    (map fst l = [["ip"; "link"; "show"]] \/
     exists name, map fst l = [["ip"; "link"; "show"];
                               ["ip"; "-4"; "addr"; "show"; "dev"; name]]).
Proof.
  unfold get_linux_interface_status, bind, try_except, raise, write,
    create_subprocess_exec, ret, set_linux_iface_status. simpl.
  destruct (exec ["ip"; "link"; "show"] (world st)) as [[rc out err | | e] w1]; simpl;
    try (eexists; split; [reflexivity | left; reflexivity]).
  destruct (Re.search link_re (Py.strip out)) as [[name | ] | ]; simpl;
    try (eexists; split; [reflexivity | left; reflexivity]).
  destruct (exec _ w1) as [[rc2 out2 err2 | | e2] w2]; simpl;
    try destruct (Re.search inet_re (Py.strip out2)); simpl; rewrite <- app_assoc;
    (eexists; split; [reflexivity | right; exists name; reflexivity]).
Qed.



Ltac check_known E :=
  unfold_check; change ADB_PATH with "adb"; simpl; rewrite E; simpl.

(** X4. The authorization probe is spawned exactly when discovery settles
    on a serial, and then for that serial, which is the one left bound;
    otherwise [adb devices] is the only process, the serial is left as it was
    and the session is not ready. *)
Theorem probe_follows_resolution st rc out err w1 :
  exec ["adb"; "devices"] (world st) = (Exited rc out err, w1) ->
  let st' := snd (check_adb_connection exec st) in
  match resolved_serial (DEVICE_SERIAL st) (devices_of (Py.strip out)) with
  | Some serial =>
      DEVICE_SERIAL st' = serial /\
      spawned_between st st'
        = [["adb"; "devices"]; ["adb"; "-s"; serial; "shell"; "echo"; "test"]]
  | None =>
      DEVICE_SERIAL st' = DEVICE_SERIAL st /\
      adb_ready st' = false /\
      spawned_between st st' = [["adb"; "devices"]]
  end.
Proof.
  intros E st'. subst st'. unfold resolved_serial, spawned_between.
  check_known E.
  destruct (devices_of (Py.strip out)) as [ | d0 rest]; simpl.
  - rewrite skipn_app, skipn_all, Nat.sub_diag. auto.
  - destruct (Py.truthy (DEVICE_SERIAL st)); simpl.
    + rewrite ?andb_false_r; simpl.
      destruct (Py.list_in (DEVICE_SERIAL st) (d0 :: rest)); simpl.
      * destruct (exec _ w1) as [[rc2 out2 err2 | | e2] w2]; simpl;
          try destruct (Py.str_in _ err2); simpl;
          rewrite <- app_assoc, skipn_app, skipn_all, Nat.sub_diag; auto.
      * rewrite skipn_app, skipn_all, Nat.sub_diag. auto.
    + rewrite ?andb_true_r. destruct rest as [ | d1 rest]; simpl.
      * destruct (exec _ w1) as [[rc2 out2 err2 | | e2] w2]; simpl;
          try destruct (Py.str_in _ err2); simpl;
          rewrite <- app_assoc, skipn_app, skipn_all, Nat.sub_diag; auto.
      * rewrite skipn_app, skipn_all, Nat.sub_diag. auto.
Qed.

(** X5. A configured serial that is not among the listed devices is never
    replaced by another device: the serial stays, the session is not ready,
    and the status is Specified Device Not Found with the configured serial as
    the device line; when no device is listed at all the status is
    Disconnected instead. *)
Theorem configured_serial_not_listed st rc out err w1 :
  exec ["adb"; "devices"] (world st) = (Exited rc out err, w1) ->
  DEVICE_SERIAL st <> "" ->
  Py.list_in (DEVICE_SERIAL st) (devices_of (Py.strip out)) = false ->
  let st' := snd (check_adb_connection exec st) in
  DEVICE_SERIAL st' = DEVICE_SERIAL st /\
  adb_ready st' = false /\
  (adb_status st', device_info st')
    = match devices_of (Py.strip out) with
      | [] => ("[red]Disconnected[/red]", "N/A")
      | _ :: _ => ("[red]Specified Device Not Found[/red]", DEVICE_SERIAL st)
      end.
Proof.
  intros E Hs Hin st'. subst st'. apply truthy_true in Hs.
  check_known E.
  destruct (devices_of (Py.strip out)) as [ | d0 rest]; simpl; auto.
  rewrite Hs, Hin. simpl. rewrite ?andb_false_r. simpl. auto.
Qed.

(** X6. When discovery has settled on a serial and the stderr of the probe
    contains "device unauthorized", the session is not ready and the status is
    Auth Failed, whatever the probe returned; the serial stays bound. *)
Theorem unauthorized_not_ready st rc0 out0 err0 w1 serial rc out err w2 :
  exec ["adb"; "devices"] (world st) = (Exited rc0 out0 err0, w1) ->
  resolved_serial (DEVICE_SERIAL st) (devices_of (Py.strip out0)) = Some serial ->
  exec ["adb"; "-s"; serial; "shell"; "echo"; "test"] w1 = (Exited rc out err, w2) ->
  Py.str_in "device unauthorized" err = true ->
  let st' := snd (check_adb_connection exec st) in
  device_record st' = ("[red]Auth Failed[/red]", serial, false) /\
  DEVICE_SERIAL st' = serial.
Proof.
  intros E0 Hres E1 Herr st'. subst st'. unfold resolved_serial in Hres.
  check_known E0.
  destruct (devices_of (Py.strip out0)) as [ | d0 rest]; [discriminate | ].
  destruct (Py.truthy (DEVICE_SERIAL st)); simpl.
  - destruct (Py.list_in (DEVICE_SERIAL st) (d0 :: rest)); [ | discriminate].
    injection Hres as <-. rewrite ?andb_false_r. simpl.
    rewrite E1. simpl. rewrite Herr. simpl. auto.
  - destruct rest; [ | discriminate]. injection Hres as <-. simpl.
    rewrite E1. simpl. rewrite Herr. simpl. auto.
Qed.

(** X7. A spawn that fails during the check leaves the session not ready
    with an error status and no device line, whether it is [adb devices] that
    cannot be spawned or the probe.  In the second case the serial discovery
    had settled on stays bound all the same: the assignment is made before the
    probe and is not undone. *)
Theorem spawn_failure_in_check st :
  let st' := snd (check_adb_connection exec st) in
  (forall r w1 record,
     exec ["adb"; "devices"] (world st) = (r, w1) ->
     spawn_failure_record r = Some record ->
     device_record st' = record /\ DEVICE_SERIAL st' = DEVICE_SERIAL st) /\
  (forall rc out err w1 serial r w2 record,
     exec ["adb"; "devices"] (world st) = (Exited rc out err, w1) ->
     resolved_serial (DEVICE_SERIAL st) (devices_of (Py.strip out)) = Some serial ->
     exec ["adb"; "-s"; serial; "shell"; "echo"; "test"] w1 = (r, w2) ->
     spawn_failure_record r = Some record ->
     device_record st' = record /\ DEVICE_SERIAL st' = serial).
Proof.
  intros st'. subst st'. split.
  - intros r w1 record E F. check_known E.
    destruct r; simpl in *; try discriminate; injection F as <-; auto.
  - intros rc out err w1 serial r w2 record E Hres E1 F.
    unfold resolved_serial in Hres. check_known E.
    destruct (devices_of (Py.strip out)) as [ | d0 rest]; [discriminate | ].
    destruct (Py.truthy (DEVICE_SERIAL st)); simpl.
    + destruct (Py.list_in (DEVICE_SERIAL st) (d0 :: rest)); [ | discriminate].
      injection Hres as <-. rewrite ?andb_false_r. simpl. rewrite E1.
      destruct r; simpl in *; try discriminate; injection F as <-; auto.
    + destruct rest; [ | discriminate]. injection Hres as <-. simpl. rewrite E1.
      destruct r; simpl in *; try discriminate; injection F as <-; auto.
Qed.

(** X8. What ready means after a check: the session is ready only when, in
    this very pass, [adb devices] ran, the serial now bound was among the
    devices it listed, and the probe to that serial ran with a stderr free of
    "device unauthorized"; the status is then Connected and the device line is
    the bound serial. *)
Theorem ready_after_check st :
  let st' := snd (check_adb_connection exec st) in
  adb_ready st' = true ->
  exists rc out err w1 rc2 out2 err2 w2,
    exec ["adb"; "devices"] (world st) = (Exited rc out err, w1) /\
    Py.list_in (DEVICE_SERIAL st') (devices_of (Py.strip out)) = true /\
    exec ["adb"; "-s"; DEVICE_SERIAL st'; "shell"; "echo"; "test"] w1
      = (Exited rc2 out2 err2, w2) /\
    Py.str_in "device unauthorized" err2 = false /\
    adb_status st' = "[green]Connected[/green]" /\
    device_info st' = DEVICE_SERIAL st'.
Proof.
  intros st'. subst st'. unfold_check. change ADB_PATH with "adb". simpl.
  destruct (exec ["adb"; "devices"] (world st)) as [[rc out err | | e] w1] eqn:E;
    simpl; try discriminate.
  destruct (devices_of (Py.strip out)) as [ | d0 rest] eqn:D; simpl; try discriminate.
  destruct (Py.truthy (DEVICE_SERIAL st)) eqn:T; simpl.
  - rewrite ?andb_false_r. simpl.
    destruct (Py.list_in (DEVICE_SERIAL st) (d0 :: rest)) eqn:L; simpl;
      try discriminate.
    destruct (exec _ w1) as [[rc2 out2 err2 | | e2] w2] eqn:E2; simpl;
      try discriminate.
    destruct (Py.str_in _ err2) eqn:S; simpl; try discriminate.
    intros _. exists rc, out, err, w1, rc2, out2, err2, w2. rewrite D. auto 10.
  - rewrite ?andb_true_r. destruct rest as [ | d1 rest]; simpl; try discriminate.
    destruct (exec _ w1) as [[rc2 out2 err2 | | e2] w2] eqn:E2; simpl;
      try discriminate.
    destruct (Py.str_in _ err2) eqn:S; simpl; try discriminate.
    intros _. exists rc, out, err, w1, rc2, out2, err2, w2. rewrite D.
    repeat split; auto.
    unfold Py.list_in. simpl. rewrite String.eqb_refl. reflexivity.
Qed.

Lemma check_adb_connection_keeps_interface st :
  linux_iface_status (snd (check_adb_connection exec st)) = linux_iface_status st.
Proof.
  unfold_check. simpl.
  destruct (exec _ (world st)) as [[rc out err | | e] w1]; simpl; auto.
  destruct (devices_of (Py.strip out)) as [ | d0 rest]; simpl; auto.
  destruct (Py.truthy (DEVICE_SERIAL st)); simpl.
  - rewrite ?andb_false_r; simpl.
    destruct (Py.list_in (DEVICE_SERIAL st) (d0 :: rest)); simpl; auto.
    destruct (exec _ w1) as [[rc2 out2 err2 | | e2] w2]; simpl;
      try destruct (Py.str_in _ err2); reflexivity.
  - rewrite ?andb_true_r. destruct rest as [ | d1 rest]; simpl; auto.
    destruct (exec _ w1) as [[rc2 out2 err2 | | e2] w2]; simpl;
      try destruct (Py.str_in _ err2); reflexivity.
Qed.

(** X9. The two checks of a refresh do not touch each other's results: the
    bridge check leaves the interface status as it was, and the interface
    probe leaves the connection status, the device line, the readiness and the
    bound serial as they were. *)
Theorem checks_keep_apart st :
  linux_iface_status (snd (check_adb_connection exec st)) = linux_iface_status st /\
  device_record (snd (get_linux_interface_status exec st)) = device_record st /\
  DEVICE_SERIAL (snd (get_linux_interface_status exec st)) = DEVICE_SERIAL st.
Proof.
  split; [apply check_adb_connection_keeps_interface
         | apply get_linux_interface_status_keeps].
Qed.

(** X10. Nothing stale survives a check.  Every path of
    [check_adb_connection] assigns the status, the device line and the
    readiness, so two sessions with the same bound serial on the same world end
    a check with the same record, serial and world, whatever their attributes
    were before; likewise the interface status after a probe depends on the
    world alone. *)
Theorem check_overwrites_record st st2 :
  DEVICE_SERIAL st = DEVICE_SERIAL st2 -> world st = world st2 ->
  let a := snd (check_adb_connection exec st) in
  let b := snd (check_adb_connection exec st2) in
  device_record a = device_record b /\ DEVICE_SERIAL a = DEVICE_SERIAL b /\
  world a = world b /\
  linux_iface_status (snd (get_linux_interface_status exec st))
    = linux_iface_status (snd (get_linux_interface_status exec st2)).
Proof.
  intros Hs Hw a b. subst a b. split; [ | split; [ | split]].
  1-3: unfold_check; simpl; rewrite <- Hs, <- Hw;
    (destruct (exec _ (world st)) as [[rc out err | | e] w1]; simpl; auto);
    (destruct (devices_of (Py.strip out)) as [ | d0 rest]; simpl; auto);
    (destruct (Py.truthy (DEVICE_SERIAL st)); simpl;
     [ rewrite ?andb_false_r; simpl;
       destruct (Py.list_in (DEVICE_SERIAL st) (d0 :: rest)); simpl; auto
     | rewrite ?andb_true_r; destruct rest as [ | d1 rest]; simpl; auto ]);
    (destruct (exec _ w1) as [[rc2 out2 err2 | | e2] w2]; simpl;
     try destruct (Py.str_in _ err2); reflexivity).
  unfold get_linux_interface_status, bind, try_except, raise, write,
    create_subprocess_exec, ret, set_linux_iface_status. simpl. rewrite <- Hw.
  destruct (exec _ (world st)) as [[rc out err | | e] w1]; simpl; auto.
  destruct (Re.search link_re (Py.strip out)) as [[name | ] | ]; simpl; auto.
  destruct (exec _ w1) as [[rc2 out2 err2 | | e2] w2]; simpl; auto.
  destruct (Re.search inet_re (Py.strip out2)); reflexivity.
Qed.

Lemma gate_closed_unbound button_id st :
  DEVICE_SERIAL st = "" ->
  exec_log (snd (on_button_pressed exec button_id st)) = exec_log st.
Proof.
  intros H. unfold on_button_pressed.
  rewrite bind_get_DEVICE_SERIAL, bind_get_adb_ready, H. reflexivity.
Qed.

(** What a press sends besides status queries. *)
Lemma press_commands button_id st a r :
  let st' := snd (on_button_pressed exec button_id st) in
  In (a, r) (skipn (List.length (exec_log st)) (exec_log st')) ->
  is_query a = false ->
  DEVICE_SERIAL st <> "" /\ adb_ready st = true /\ addressed (DEVICE_SERIAL st) a.
Proof.
  intros st' I Q. subst st'.
  destruct (string_dec (DEVICE_SERIAL st) "") as [Hs | Hs].
  { rewrite (gate_closed_unbound _ _ Hs), skipn_all in I. destruct I. }
  destruct (adb_ready st) eqn:Hr.
  2:{ rewrite (gate_closed _ _ Hr), skipn_all in I. destruct I. }
  split; [exact Hs | ]. split; [reflexivity | ].
  assert (Hadb : forall args, full_command (DEVICE_SERIAL st) args
                              = "adb" :: "-s" :: DEVICE_SERIAL st :: args)
    by (intros; apply full_command_bound, Hs).
  assert (Known : forall args, In args device_commands ->
                               addressed (DEVICE_SERIAL st) (full_command (DEVICE_SERIAL st) args)).
  { intros args A. exists args. rewrite Hadb. auto. }
  destruct (String.eqb button_id "enable-btn") eqn:B1.
  { apply String.eqb_eq in B1. subst button_id.
    pose proof (enable_press_log st Hs Hr) as Main. cbv zeta in Main.
    destruct (exec _ (world st)) as [r1 w1].
    destruct (exec _ w1) as [r2 w2].
    destruct (exec _ w2) as [r3 w3].
    destruct (exec _ w3) as [r4 w4].
    destruct Main as (q & L & Qs & _).
    rewrite L, skipn_app, skipn_all, Nat.sub_diag in I. simpl in I.
    destruct I as [[= <- _] | [[= <- _] | I]];
      [apply Known; simpl; auto | apply Known; simpl; auto | ].
    apply in_app_or in I. destruct I as [I | I].
    - destruct (succeeded r2); [ | destruct I].
      destruct I as [[= <- _] | I]; [apply Known; simpl; auto | ].
      destruct (succeeded r3); [ | destruct I].
      destruct I as [[= <- _] | []]. apply Known; simpl; auto.
    - exfalso. revert I. apply query_only_excludes_entry; assumption. }
  destruct (String.eqb button_id "disable-btn") eqn:B2.
  { apply String.eqb_eq in B2. subst button_id.
    pose proof (disable_press_log st Hs Hr) as Main. cbv zeta in Main.
    destruct (exec _ (world st)) as [r1 w1].
    destruct (exec _ w1) as [r2 w2].
    destruct (exec _ w2) as [r3 w3].
    destruct Main as (q & L & Qs & _).
    rewrite L, skipn_app, skipn_all, Nat.sub_diag in I. simpl in I.
    destruct I as [[= <- _] | I]; [apply Known; simpl; auto 10 | ].
    apply in_app_or in I. destruct I as [I | I].
    - destruct (succeeded r1); [ | destruct I].
      destruct I as [[= <- _] | I]; [apply Known; simpl; auto 10 | ].
      destruct (succeeded r2); [ | destruct I].
      destruct I as [[= <- _] | []]. apply Known; simpl; auto 10.
    - exfalso. revert I. apply query_only_excludes_entry; assumption. }
  exfalso. revert I. unfold on_button_pressed.
  rewrite bind_get_DEVICE_SERIAL, bind_get_adb_ready, Hr,
    (proj2 (truthy_true _) Hs), B1, B2. cbn [negb orb].
  destruct (String.eqb button_id "refresh-btn").
  - destruct (action_refresh_status_framed st) as [_ [_ (l & L & _ & Qs)]].
    rewrite L, skipn_app, skipn_all, Nat.sub_diag. simpl.
    apply query_only_excludes_entry; assumption.
  - simpl. rewrite skipn_all. exact (fun F => F).
Qed.

(** X11. Whatever a button press spawns besides the status queries of its
    refresh is one of the seven device commands of the two pipelines, sent
    with [-s] to the serial bound when the button was pressed, and it is
    spawned only when that serial is non-empty and the session is ready. *)
Theorem press_sends_to_bound_serial button_id st a :
  In a (spawned_between st (snd (on_button_pressed exec button_id st))) ->
  is_query a = false ->
  DEVICE_SERIAL st <> "" /\ adb_ready st = true /\
  exists args, In args device_commands /\ a = "adb" :: "-s" :: DEVICE_SERIAL st :: args.
Proof.
  unfold spawned_between. intros I Q.
  apply in_map_iff in I as ([a' r] & <- & I).
  exact (press_commands button_id st a' r I Q).
Qed.

Lemma run_events_commands evs : forall st,
  (forall a r, In (a, r) (exec_log st) -> is_query a = false ->
               DEVICE_SERIAL st <> "" /\ addressed (DEVICE_SERIAL st) a) ->
  forall a r, In (a, r) (exec_log (run_events exec evs st)) -> is_query a = false ->
              addressed (DEVICE_SERIAL (run_events exec evs st)) a.
Proof.
  induction evs as [ | ev evs IH]; intros st Inv a r I Q; simpl in *.
  - apply (Inv a r I Q).
  - refine (IH (snd (handle exec ev st)) _ a r I Q).
    clear a r I Q. intros a r I Q.
    destruct (handle_framed ev st) as [S (l & L & _ & _)].
    rewrite L in I. apply in_app_or in I. destruct I as [I | I].
    + destruct (Inv a r I Q) as [Hs A]. rewrite (S Hs). auto.
    + assert (I' : In (a, r) (skipn (List.length (exec_log st))
                                    (exec_log (snd (handle exec ev st))))).
      { rewrite L, skipn_app, skipn_all, Nat.sub_diag. exact I. }
      destruct ev as [ | button_id]; simpl in *.
      * exfalso. revert I.
        destruct (action_refresh_status_framed st) as [_ [_ (l' & L' & _ & Qs)]].
        rewrite L' in L. apply app_inv_head in L. subst l'.
        apply query_only_excludes_entry; assumption.
      * destruct (press_commands button_id st a r I' Q) as (Hs & _ & A).
        rewrite (S Hs). auto.
Qed.

(** X12. In a whole run of the application, from start-up through any
    sequence of timer refreshes and button presses, every process spawned that
    is not a status query is one of the seven device commands sent with [-s]
    to one and the same serial, the one bound at the end of the run: the
    application never sends a device command to two different devices. *)
Theorem one_device_per_run w evs a r :
  In (a, r) (exec_log (app_run exec w evs)) ->
  is_query a = false ->
  exists args,
    In args device_commands /\
    a = "adb" :: "-s" :: DEVICE_SERIAL (app_run exec w evs) :: args.
Proof.
  unfold app_run, on_mount. apply run_events_commands.
  clear a r. intros a r I Q. exfalso. revert I.
  destruct (action_refresh_status_framed (startup w)) as [_ [_ (l & L & _ & Qs)]].
  rewrite L. simpl. apply query_only_excludes_entry; assumption.
Qed.


(** ** The message log *)

Ltac log_grown :=
  cbn [rich_log snd]; rewrite <- ?app_assoc;
  first [ exists []; rewrite app_nil_r; reflexivity | eexists; reflexivity ].

Lemma check_adb_connection_log st :
  exists l, rich_log (snd (check_adb_connection exec st)) = rich_log st ++ l.
Proof.
  unfold_check. simpl.
  destruct (exec _ (world st)) as [[rc out err | | e] w1]; simpl; try log_grown.
  destruct (devices_of (Py.strip out)) as [ | d0 rest]; simpl; try log_grown.
  destruct (Py.truthy (DEVICE_SERIAL st)); simpl.
  - rewrite ?andb_false_r; simpl.
    destruct (Py.list_in (DEVICE_SERIAL st) (d0 :: rest)); simpl; try log_grown.
    destruct (exec _ w1) as [[rc2 out2 err2 | | e2] w2]; simpl;
      try destruct (Py.str_in _ err2); log_grown.
  - rewrite ?andb_true_r. destruct rest as [ | d1 rest]; simpl; try log_grown.
    destruct (exec _ w1) as [[rc2 out2 err2 | | e2] w2]; simpl;
      try destruct (Py.str_in _ err2); log_grown.
Qed.

Lemma get_linux_interface_status_log st :
  exists l, rich_log (snd (get_linux_interface_status exec st)) = rich_log st ++ l.
Proof.
  unfold get_linux_interface_status, bind, try_except, raise, write,
    create_subprocess_exec, ret, set_linux_iface_status. simpl.
  destruct (exec _ (world st)) as [[rc out err | | e] w1]; simpl; try log_grown.
  destruct (Re.search link_re (Py.strip out)) as [[name | ] | ]; simpl; try log_grown.
  destruct (exec _ w1) as [[rc2 out2 err2 | | e2] w2]; simpl; try log_grown.
  destruct (Re.search inet_re (Py.strip out2)); log_grown.
Qed.

Lemma action_refresh_status_log st :
  exists lines,
    rich_log (snd (action_refresh_status exec st))
    = rich_log st ++ ["[cyan]Refreshing status...[/cyan]"] ++ lines
        ++ ["[green]Status refreshed.[/green]"].
Proof.
  rewrite action_refresh_status_unfold.
  set (sa := snd (write World "[cyan]Refreshing status...[/cyan]" st)).
  destruct (check_adb_connection_log sa) as [l1 L1].
  destruct (get_linux_interface_status_log (snd (check_adb_connection exec sa)))
    as [l2 L2].
  exists (l1 ++ l2). cbn [write snd rich_log]. rewrite L2, L1.
  subst sa. cbn [write snd rich_log]. rewrite <- !app_assoc. reflexivity.
Qed.

Lemma enable_press_lines st :
  DEVICE_SERIAL st <> "" -> adb_ready st = true ->
  exists commands refresh,
    rich_log (snd (on_button_pressed exec "enable-btn" st))
    = rich_log st
        ++ ["[bold green]Attempting to ENABLE tethering...[/bold green]"]
        ++ commands
        ++ ["[bold green]Tethering commands sent. Refreshing status.[/bold green]";
            "[cyan]Refreshing status...[/cyan]"]
        ++ refresh
        ++ ["[green]Status refreshed.[/green]";
            "[dim]Reminder: You might need to manually configure DHCP on the new Linux interface.[/dim]"].
Proof.
  intros Hs Hr. ready_gate Hs Hr.
  assert (Fin : forall stp line,
             exists mid,
               rich_log (snd (bind World (action_refresh_status exec)
                                   (fun _ => write World line) stp))
               = rich_log stp ++ ["[cyan]Refreshing status...[/cyan]"] ++ mid
                   ++ ["[green]Status refreshed.[/green]"; line]).
  { intros stp line. destruct (action_refresh_status_framed stp) as [R _].
    rewrite (bind_run _ _ _ tt) by exact R.
    destruct (action_refresh_status_log stp) as [mid L]. exists mid.
    cbn [write snd rich_log]. rewrite L, <- !app_assoc. reflexivity. }
  rewrite bind_write.
  run_step. run_step.
  destruct (succeeded _).
  - run_step.
    destruct (succeeded _).
    + rewrite (bind_run _ _ _ tt).
      2:{ run_step. reflexivity. }
      run_step. cbn [fst snd ret].
      rewrite bind_write.
      match goal with |- context [bind _ _ _ ?stp] =>
        destruct (Fin stp "[dim]Reminder: You might need to manually configure DHCP on the new Linux interface.[/dim]") as [mid ->] end.
      exists (lines ++ lines0 ++ lines1 ++ lines2), mid.
      cbn [rich_log]. rewrite <- !app_assoc. reflexivity.
    + rewrite (bind_run _ _ _ tt) by reflexivity. cbn [snd ret].
      rewrite bind_write.
      match goal with |- context [bind _ _ _ ?stp] =>
        destruct (Fin stp "[dim]Reminder: You might need to manually configure DHCP on the new Linux interface.[/dim]") as [mid ->] end.
      exists (lines ++ lines0 ++ lines1), mid.
      cbn [rich_log]. rewrite <- !app_assoc. reflexivity.
  - rewrite (bind_run _ _ _ false) by reflexivity. cbn [snd ret].
    rewrite (bind_run _ _ _ tt) by reflexivity. cbn [snd ret].
    rewrite bind_write.
    match goal with |- context [bind _ _ _ ?stp] =>
      destruct (Fin stp "[dim]Reminder: You might need to manually configure DHCP on the new Linux interface.[/dim]") as [mid ->] end.
    exists (lines ++ lines0), mid.
    cbn [rich_log]. rewrite <- !app_assoc. reflexivity.
Qed.

Lemma disable_press_lines st :
  DEVICE_SERIAL st <> "" -> adb_ready st = true ->
  exists commands refresh,
    rich_log (snd (on_button_pressed exec "disable-btn" st))
    = rich_log st
        ++ ["[bold yellow]Attempting to DISABLE tethering...[/bold yellow]"]
        ++ commands
        ++ ["[bold yellow]Tethering deactivation commands sent. Refreshing status.[/bold yellow]";
            "[cyan]Refreshing status...[/cyan]"]
        ++ refresh
        ++ ["[green]Status refreshed.[/green]"].
Proof.
  intros Hs Hr. ready_gate Hs Hr.
  rewrite bind_write.
  run_step.
  destruct (succeeded _).
  - run_step.
    destruct (succeeded _).
    + rewrite (bind_run _ _ _ tt).
      2:{ run_step. reflexivity. }
      run_step. cbn [fst snd ret].
      rewrite bind_write.
      match goal with |- context [action_refresh_status exec ?stp] =>
        destruct (action_refresh_status_log stp) as [mid ->] end.
      exists (lines ++ lines0 ++ lines1), mid.
      cbn [rich_log]. rewrite <- !app_assoc. reflexivity.
    + rewrite (bind_run _ _ _ tt) by reflexivity. cbn [snd ret].
      rewrite bind_write.
      match goal with |- context [action_refresh_status exec ?stp] =>
        destruct (action_refresh_status_log stp) as [mid ->] end.
      exists (lines ++ lines0), mid.
      cbn [rich_log]. rewrite <- !app_assoc. reflexivity.
  - rewrite (bind_run _ _ _ false) by reflexivity. cbn [snd ret].
    rewrite (bind_run _ _ _ tt) by reflexivity. cbn [snd ret].
    rewrite bind_write.
    match goal with |- context [action_refresh_status exec ?stp] =>
      destruct (action_refresh_status_log stp) as [mid ->] end.
    exists lines, mid.
    cbn [rich_log]. rewrite <- !app_assoc. reflexivity.
Qed.

Lemma handle_log ev st :
  exists lines, rich_log (snd (handle exec ev st)) = rich_log st ++ lines.
Proof.
  destruct ev as [ | button_id]; simpl.
  { destruct (action_refresh_status_log st) as [l ->]. eexists; reflexivity. }
  destruct (string_dec (DEVICE_SERIAL st) "") as [Hs | Hs].
  { unfold on_button_pressed.
    rewrite bind_get_DEVICE_SERIAL, bind_get_adb_ready, Hs. simpl.
    eexists; reflexivity. }
  destruct (adb_ready st) eqn:Hr.
  2:{ unfold on_button_pressed.
      rewrite bind_get_DEVICE_SERIAL, bind_get_adb_ready, Hr, orb_true_r. simpl.
      eexists; reflexivity. }
  destruct (String.eqb button_id "enable-btn") eqn:B1.
  { apply String.eqb_eq in B1. subst button_id.
    destruct (enable_press_lines st Hs Hr) as (a & b & ->). eexists; reflexivity. }
  destruct (String.eqb button_id "disable-btn") eqn:B2.
  { apply String.eqb_eq in B2. subst button_id.
    destruct (disable_press_lines st Hs Hr) as (a & b & ->). eexists; reflexivity. }
  unfold on_button_pressed.
  rewrite bind_get_DEVICE_SERIAL, bind_get_adb_ready, Hr,
    (proj2 (truthy_true _) Hs), B1, B2. cbn [negb orb].
  destruct (String.eqb button_id "refresh-btn").
  - destruct (action_refresh_status_log st) as [l ->]. eexists; reflexivity.
  - exists []. simpl. rewrite app_nil_r. reflexivity.
Qed.



End Further.

(** ** Discovery on a well-formed listing *)

Section WellFormed.

Local Open Scope string_scope.

Lemma space_is_break c : Py.isspace c = false -> Py.islinebreak c = false.
Proof.
  destruct c as [[] [] [] [] [] [] [] []]; vm_compute; congruence.
Qed.

Lemma nonspace_lacks c w :
  Py.isspace c = true -> Re.all_in Re.NonSpace w = true -> Py.lacks c w = true.
Proof.
  intros C. induction w as [ | a w IH]; simpl; intros H; [reflexivity | ].
  apply andb_true_iff in H as [A H]. rewrite (IH H), andb_true_r.
  destruct (Ascii.eqb a c) eqn:E; [ | reflexivity].
  apply Ascii.eqb_eq in E. subst a. rewrite C in A. discriminate.
Qed.

Lemma nonspace_one_line w : Re.all_in Re.NonSpace w = true -> one_line w = true.
Proof.
  induction w as [ | a w IH]; simpl; intros H; [reflexivity | ].
  apply andb_true_iff in H as [A H]. rewrite (IH H), andb_true_r.
  apply negb_true_iff in A. rewrite (space_is_break _ A). reflexivity.
Qed.

Lemma one_line_app a b : one_line (a ++ b) = one_line a && one_line b.
Proof.
  induction a as [ | c a IH]; simpl; [reflexivity | ].
  rewrite IH, andb_assoc. reflexivity.
Qed.

Lemma row_one_line e : word (fst e) -> word (snd e) -> one_line (row e) = true.
Proof.
  intros [_ S] [_ T]. unfold row.
  rewrite one_line_app. simpl.
  rewrite (nonspace_one_line _ S), (nonspace_one_line _ T). reflexivity.
Qed.

Lemma row_not_empty e : word (fst e) -> row e <> "".
Proof. intros [N _]. unfold row. destruct (fst e); [congruence | discriminate]. Qed.

(** *** [strip] takes the empty line at the end, and nothing else *)

Lemma rstrip_final_breaks x :
  Py.rstrip (x ++ String Py.LF (String Py.LF "")) = Py.rstrip x.
Proof.
  induction x as [ | c x IH]; [reflexivity | ].
  simpl. rewrite IH. reflexivity.
Qed.

Lemma rstrip_word w :
  w <> "" -> Re.all_in Re.NonSpace w = true -> Py.rstrip w = w.
Proof.
  induction w as [ | c w IH]; [congruence | ]. intros _ H.
  simpl in H. apply andb_true_iff in H as [C H]. apply negb_true_iff in C.
  simpl. destruct w as [ | d w].
  - simpl. rewrite C. reflexivity.
  - rewrite IH by (auto; discriminate). reflexivity.
Qed.

Lemma rstrip_word_end a w :
  w <> "" -> Re.all_in Re.NonSpace w = true -> Py.rstrip (a ++ w) = a ++ w.
Proof.
  intros N H. induction a as [ | c a IH]; [apply rstrip_word; assumption | ].
  simpl. rewrite IH. destruct (a ++ w) eqn:E; [ | reflexivity].
  destruct a; [simpl in E; congruence | discriminate].
Qed.

Lemma rstrip_kept_app a b :
  b <> "" -> Py.rstrip b = b -> Py.rstrip (a ++ b) = a ++ b.
Proof.
  intros N H. induction a as [ | c a IH]; [exact H | ].
  simpl. rewrite IH. destruct (a ++ b) eqn:E; [ | reflexivity].
  destruct a; [simpl in E; congruence | discriminate].
Qed.

Lemma rstrip_row e : word (fst e) -> word (snd e) -> Py.rstrip (row e) = row e.
Proof.
  intros _ [N T]. unfold row.
  apply rstrip_kept_app.
  - discriminate.
  - change (String Py.TAB (snd e)) with (String Py.TAB "" ++ snd e).
    apply rstrip_word_end; assumption.
Qed.

Lemma rstrip_rows entries :
  Forall (fun e => word (fst e) /\ word (snd e)) entries ->
  forall a, a <> "" -> Py.rstrip a = a ->
            Py.rstrip (a ++ rows entries) = a ++ rows entries.
Proof.
  induction 1 as [ | e es [S T] _ IH]; intros a N R.
  - simpl. rewrite append_empty_r. exact R.
  - change (rows (e :: es)) with (String Py.LF "" ++ row e ++ rows es).
    rewrite <- (append_assoc (String Py.LF "")), <- append_assoc.
    apply IH.
    + destruct a; [congruence | discriminate].
    + apply rstrip_kept_app.
      * apply row_not_empty in S. simpl. discriminate.
      * apply (rstrip_kept_app (String Py.LF "")).
        -- apply row_not_empty, S.
        -- apply rstrip_row; assumption.
Qed.

Lemma strip_adb_listing entries :
  Forall (fun e => word (fst e) /\ word (snd e)) entries ->
  Py.strip (adb_listing entries) = "List of devices attached" ++ rows entries.
Proof.
  intros W. unfold Py.strip, adb_listing.
  change (Py.lstrip ("List of devices attached" ++ ?x))
    with ("List of devices attached" ++ x).
  rewrite <- append_assoc, rstrip_final_breaks.
  apply rstrip_rows; [exact W | discriminate | reflexivity].
Qed.

(** *** One line for the header and one for each row *)

Lemma splitlines_one_line l : l <> "" -> one_line l = true -> Py.splitlines l = [l].
Proof.
  induction l as [ | c l IH]; [congruence | ]. intros _ H.
  simpl in H. apply andb_true_iff in H as [C H]. apply negb_true_iff in C.
  simpl. rewrite C. destruct l as [ | d l]; [reflexivity | ].
  rewrite IH by (auto; discriminate). reflexivity.
Qed.

Lemma splitlines_line l rest :
  one_line l = true -> rest <> "" ->
  Py.splitlines (l ++ String Py.LF rest) = l :: Py.splitlines rest.
Proof.
  intros H N. induction l as [ | c l IH].
  - destruct rest as [ | d rest]; [congruence | ]. reflexivity.
  - simpl in H. apply andb_true_iff in H as [C H]. apply negb_true_iff in C.
    change (String c l ++ String Py.LF rest) with (String c (l ++ String Py.LF rest)).
    cbn [Py.splitlines]. rewrite C, (IH H). reflexivity.
Qed.

Lemma splitlines_rows entries :
  Forall (fun e => word (fst e) /\ word (snd e)) entries ->
  forall a, a <> "" -> one_line a = true ->
            Py.splitlines (a ++ rows entries) = a :: map row entries.
Proof.
  induction 1 as [ | e es [S T] _ IH]; intros a N L.
  - simpl. rewrite append_empty_r. apply splitlines_one_line; assumption.
  - change (rows (e :: es)) with (String Py.LF (row e ++ rows es)).
    rewrite splitlines_line.
    + rewrite IH; [reflexivity | apply row_not_empty, S | apply row_one_line; assumption].
    + exact L.
    + apply row_not_empty in S. destruct (row e); [congruence | discriminate].
Qed.

(** *** The test and the field of a row *)

Lemma prefix_lacks c n w :
  String.prefix n w = true -> Py.lacks c w = true -> Py.lacks c n = true.
Proof.
  revert w; induction n as [ | a n IH]; intros w P L; [reflexivity | ].
  destruct w as [ | b w]; [discriminate | ]. simpl in *.
  destruct (ascii_dec a b) as [-> | _]; [ | discriminate].
  apply andb_true_iff in L as [B L]. rewrite B. simpl. exact (IH _ P L).
Qed.

Lemma str_in_lacks c n w :
  Py.lacks c w = true -> Py.lacks c n = false -> Py.str_in n w = false.
Proof.
  intros L N. induction w as [ | b w IH].
  - cbn [Py.str_in]. destruct (String.prefix n "") eqn:P; [ | reflexivity].
    rewrite (prefix_lacks c _ _ P L) in N. discriminate.
  - cbn [Py.str_in]. destruct (String.prefix n (String b w)) eqn:P.
    + rewrite (prefix_lacks c _ _ P L) in N. discriminate.
    + apply IH. simpl in L. apply andb_true_iff in L as [_ L]. exact L.
Qed.

Lemma word_not_header w :
  word w -> Py.str_in "List of devices attached" w = false.
Proof.
  intros [_ H]. apply (str_in_lacks " "%char); [ | reflexivity].
  apply nonspace_lacks; [reflexivity | exact H].
Qed.

Lemma is_device_line_row e :
  word (fst e) -> word (snd e) ->
  is_device_line (row e)
  = Py.str_in "device" (fst e) || Py.str_in "device" (snd e).
Proof.
  intros S T. unfold is_device_line, row.
  rewrite !str_in_around_sep by (reflexivity || discriminate).
  rewrite (word_not_header _ S), (word_not_header _ T), andb_true_r. reflexivity.
Qed.

Lemma split_first_field c s t :
  Py.lacks c s = true -> Py.split c (s ++ String c t) = s :: Py.split c t.
Proof.
  induction s as [ | a s IH]; intros L; simpl.
  - rewrite Ascii.eqb_refl. reflexivity.
  - simpl in L. apply andb_true_iff in L as [A L]. apply negb_true_iff in A.
    rewrite A, (IH L). reflexivity.
Qed.

Lemma row_serial e : word (fst e) -> Py.item0 (Py.split Py.TAB (row e)) = fst e.
Proof.
  intros [_ S]. unfold row. rewrite split_first_field; [reflexivity | ].
  apply nonspace_lacks; [reflexivity | exact S].
Qed.

(** X16. Discovery on a well-formed listing.  When [adb devices] prints its
    header, one row [SERIAL TAB STATE] for each device and the empty line at
    the end, with serials and states that are words without white space, the
    list the check works with, [devices_of] of the stripped output, is exactly
    the serials of the rows in which the text "device" occurs, in the order
    listed: the header is never taken for a device, and a row in state offline
    or unauthorized counts only if its serial contains "device". *)
Theorem discovery_on_listing entries :
  Forall (fun e => word (fst e) /\ word (snd e)) entries ->
  devices_of (Py.strip (adb_listing entries))
  = map fst (filter (fun e => Py.str_in "device" (fst e) || Py.str_in "device" (snd e))
                    entries).
Proof.
  intros W. rewrite (strip_adb_listing _ W). unfold devices_of.
  rewrite (splitlines_rows _ W) by (discriminate || reflexivity).
  cbn [filter].
  change (is_device_line "List of devices attached") with false. cbv iota.
  induction W as [ | e es [S T] _ IH]; [reflexivity | ].
  cbn [map filter]. rewrite (is_device_line_row _ S T).
  destruct (Py.str_in "device" (fst e) || Py.str_in "device" (snd e)).
  - cbn [map]. rewrite IH, (row_serial _ S). reflexivity.
  - exact IH.
Qed.

End WellFormed.

End Properties.

(** * The properties on concrete worlds *)

Import Scenario.

(** C1 on the phone before its first refresh: no serial is bound, and a press
    of the enable button spawns nothing and leaves the USB function alone. *)
Lemma not_ready_press_spawns_nothing_witness :
  DEVICE_SERIAL phone_start = "" /\
  exec_log (snd (on_button_pressed phone_exec "enable-btn" phone_start)) = [] /\
  world (snd (on_button_pressed phone_exec "enable-btn" phone_start)) = "mtp,adb".
Proof.
  split; [reflexivity | ].
  destruct (not_ready_press_spawns_nothing _ phone_exec "enable-btn" phone_start
              (or_introl eq_refl)) as (_ & L & W & _).
  split; [exact L | exact W].
Defined.



(** The phone of the scenario is a device in the sense of the round trip. *)
Lemma phone_set_functions_takes serial functions w out err w' :
  phone_exec ("adb" :: "-s" :: serial :: cmd_usb functions) w = (Exited 0 out err, w') ->
  w' = functions.
Proof. unfold phone_exec. intros [= _ <-]. reflexivity. Qed.

Lemma phone_others_keep_functions a w :
  is_set_functions a = false -> snd (phone_exec a w) = w.
Proof. unfold phone_exec. intros ->. reflexivity. Qed.

Ltac step_found :=
  eexists; split;
  [ vm_compute; repeat first [ left; reflexivity | right ] | reflexivity ].


(** C5 as stated fails: the listing of the offline phone device01 has no
    line whose state field contains device, yet the whole-line test keeps the
    line, device01 is adopted, and the session ends Connected and ready. *)
Lemma state_field_reading_counterexample :
  filter device_state_line (Py.splitlines (Py.strip offline_listing)) = [] /\
  devices_of (Py.strip offline_listing) = ["device01"] /\
  device_record (snd (check_adb_connection offline_exec (initial "" tt)))
    = ("[green]Connected[/green]", "device01", true).
Proof. vm_compute. repeat split. Qed.

(** C5 as amended, on the phone that has not granted authorization. *)
Lemma no_device_text_disconnected_witness :
  let st' := snd (check_adb_connection unauthorized_exec (initial "" tt)) in
  device_record st' = ("[red]Disconnected[/red]", "N/A", false) /\
  is_device_line ("ABC123" ++ String Py.TAB "unauthorized") = false.
Proof.
  intros st'.
  destruct (no_device_text_disconnected _ unauthorized_exec (initial "" tt) 0
              ("List of devices attached" ++ NL ++ "ABC123" ++ HT ++ "unauthorized"
               ++ NL ++ NL) "" tt eq_refl) as [(S & I & R & _) X].
  - intros line L. vm_compute in L.
    destruct L as [<- | [<- | []]]; vm_compute; [reflexivity | discriminate].
  - split.
    + fold st' in S, I, R. unfold device_record. rewrite S, I, R. reflexivity.
    + apply X; reflexivity.
Defined.



(** C8 on the phone, where the first refresh binds the serial. *)
Lemma refresh_twice_same_result_witness :
  let st1 := snd (action_refresh_status phone_exec phone_start) in
  let st2 := snd (action_refresh_status phone_exec st1) in
  DEVICE_SERIAL phone_start = "" /\ DEVICE_SERIAL st1 = "ABC123" /\
  device_record st2 = device_record st1 /\
  linux_iface_status st2 = linux_iface_status st1 /\
  DEVICE_SERIAL st2 = DEVICE_SERIAL st1.
Proof.
  intros st1 st2. split; [reflexivity | ]. split; [vm_compute; reflexivity | ].
  exact (refresh_twice_same_result _ phone_exec (fun a w w' => eq_refl) phone_start).
Defined.

(** C9 on the phone, through presses and refreshes. *)
Lemma serial_bound_once_witness :
  DEVICE_SERIAL phone_ready <> "" /\
  DEVICE_SERIAL
    (run_events phone_exec
       [Pressed "enable-btn"; Refresh; Pressed "disable-btn"; Pressed "refresh-btn"]
       phone_ready)
  = DEVICE_SERIAL phone_ready.
Proof.
  assert (Hs : DEVICE_SERIAL phone_ready <> "") by (vm_compute; discriminate).
  split; [exact Hs | ].
  exact (proj1 (serial_bound_once _ phone_exec phone_ready) _ Hs).
Defined.

(** C10 on the offline phone: the probe returns 1, its stderr lacks the
    marker, and the session is marked ready. *)
Lemma authorization_ignores_exit_code_witness :
  let st' := snd (check_adb_connection offline_exec (initial "" tt)) in
  offline_exec ["adb"; "-s"; "device01"; "shell"; "echo"; "test"] tt
    = (Exited 1 "" ("error: device offline" ++ NL), tt) /\
  adb_ready st' = true /\ adb_status st' = "[green]Connected[/green]".
Proof.
  intros st'. split; [reflexivity | ].
  destruct (authorization_ignores_exit_code _ offline_exec (initial "" tt)
              0 offline_listing "" tt "device01"
              1 "" ("error: device offline" ++ NL) tt
              eq_refl eq_refl eq_refl eq_refl) as (R & S & _).
  split; [exact R | exact S].
Defined.

(** ** Further properties on concrete worlds *)

(** X4 on the phone at start-up: discovery settles on ABC123, and the probe
    for ABC123 follows [adb devices]. *)
Lemma probe_follows_resolution_witness :
  let st' := snd (check_adb_connection phone_exec phone_start) in
  DEVICE_SERIAL st' = "ABC123" /\
  spawned_between phone_start st'
    = [["adb"; "devices"]; ["adb"; "-s"; "ABC123"; "shell"; "echo"; "test"]].
Proof.
  exact (probe_follows_resolution _ phone_exec phone_start 0
           ("List of devices attached" ++ NL ++ "ABC123" ++ HT ++ "device" ++ NL ++ NL)
           "" "mtp,adb" eq_refl).
Defined.

(** X5 with the serial XYZ789 configured and two other phones listed. *)
Lemma configured_serial_not_listed_witness :
  let st' := snd (check_adb_connection two_phones_exec (initial "XYZ789" tt)) in
  DEVICE_SERIAL st' = "XYZ789" /\
  adb_ready st' = false /\
  (adb_status st', device_info st')
    = ("[red]Specified Device Not Found[/red]", "XYZ789").
Proof.
  assert (Hs : DEVICE_SERIAL (initial "XYZ789" tt) <> "") by discriminate.
  exact (configured_serial_not_listed _ two_phones_exec (initial "XYZ789" tt) 0
           ("List of devices attached" ++ NL ++ "ABC123" ++ HT ++ "device"
            ++ NL ++ "DEF456" ++ HT ++ "device" ++ NL ++ NL) "" tt
           eq_refl Hs eq_refl).
Defined.

(** X6 on the phone whose authorization has been revoked. *)
Lemma unauthorized_not_ready_witness :
  let st' := snd (check_adb_connection revoked_exec (initial "" tt)) in
  device_record st' = ("[red]Auth Failed[/red]", "ABC123", false) /\
  DEVICE_SERIAL st' = "ABC123".
Proof.
  exact (unauthorized_not_ready _ revoked_exec (initial "" tt) 0
           ("List of devices attached" ++ NL ++ "ABC123" ++ HT ++ "device" ++ NL ++ NL)
           "" tt "ABC123" 1 "" ("error: device unauthorized." ++ NL) tt
           eq_refl eq_refl eq_refl eq_refl).
Defined.

(** X8 on the phone at start-up: the check leaves the session ready, so the
    serial it bound is listed and its probe ran without the marker. *)
Lemma ready_after_check_witness :
  let st' := snd (check_adb_connection phone_exec phone_start) in
  adb_ready st' = true /\
  exists out,
    fst (phone_exec ["adb"; "devices"] "mtp,adb") = Exited 0 out "" /\
    Py.list_in (DEVICE_SERIAL st') (devices_of (Py.strip out)) = true.
Proof.
  intros st'.
  assert (Hr : adb_ready st' = true) by (vm_compute; reflexivity).
  split; [exact Hr | ].
  destruct (ready_after_check _ phone_exec phone_start Hr)
    as (rc & out & err & w1 & _ & _ & _ & _ & E & I & _).
  vm_compute in E. injection E as <- <- <- <-.
  eexists. split; [reflexivity | exact I].
Defined.

(** X10 on the offline phone: a session that shows stale attributes ends the
    check with the same record as a fresh one. *)
Lemma check_overwrites_record_witness :
  let stale := mkState "" "[red]Auth Failed[/red]" "OLD" "[red]Not Detected[/red]"
                       true ["old line"] tt [] in
  device_record (snd (check_adb_connection offline_exec stale))
    = device_record (snd (check_adb_connection offline_exec (initial "" tt))) /\
  linux_iface_status (snd (get_linux_interface_status offline_exec stale))
    = linux_iface_status (snd (get_linux_interface_status offline_exec (initial "" tt))).
Proof.
  intros stale.
  destruct (check_overwrites_record _ offline_exec stale (initial "" tt)
              eq_refl eq_refl) as (R & _ & _ & L).
  split; [exact R | exact L].
Defined.

(** X11 on the phone: the [adb root] of an enable press is addressed to
    ABC123, the serial bound when the button was pressed. *)
Lemma press_sends_to_bound_serial_witness :
  DEVICE_SERIAL phone_ready <> "" /\ adb_ready phone_ready = true /\
  exists args,
    In args device_commands /\
    ["adb"; "-s"; "ABC123"; "root"] = "adb" :: "-s" :: DEVICE_SERIAL phone_ready :: args.
Proof.
  apply (press_sends_to_bound_serial _ phone_exec "enable-btn" phone_ready
           ["adb"; "-s"; "ABC123"; "root"]).
  - vm_compute. left. reflexivity.
  - reflexivity.
Defined.

(** X12 on the phone, over start-up, an enable press, a timer refresh and a
    disable press: the switch back to mtp,adb is addressed to the serial bound
    at the end of the run. *)
Lemma one_device_per_run_witness :
  let evs := [Pressed "enable-btn"; Refresh; Pressed "disable-btn"] in
  exists args,
    In args device_commands /\
    ["adb"; "-s"; "ABC123"; "shell"; "svc"; "usb"; "setFunctions"; "mtp,adb"]
    = "adb" :: "-s" :: DEVICE_SERIAL (app_run phone_exec "mtp,adb" evs) :: args.
Proof.
  intros evs.
  apply (one_device_per_run _ phone_exec "mtp,adb" evs
           ["adb"; "-s"; "ABC123"; "shell"; "svc"; "usb"; "setFunctions"; "mtp,adb"]
           (Exited 0 "" "")).
  - vm_compute. repeat first [ left; reflexivity | right ].
  - reflexivity.
Defined.



(** X16 on a listing of three phones, one of them a device. *)
Lemma discovery_on_listing_witness :
  devices_of (Py.strip (adb_listing [("ABC123", "device"); ("DEF456", "offline");
                                     ("GHI789", "unauthorized")]))
  = ["ABC123"].
Proof.
  apply (discovery_on_listing [("ABC123", "device"); ("DEF456", "offline");
                               ("GHI789", "unauthorized")]).
  repeat constructor; simpl; discriminate.
Defined.
